(** * Setshaba Connect API: access control and report lifecycle

    A shallow embedding of the route handlers of the reports, users,
    municipalities and auth routers, with the JavaScript fragment the
    handlers rely on (truthiness, [||], [===], [+] and [-] on request
    values).

    The handlers talk to a hosted relational store through the
    [supabase] client.  The store is modelled by its four tables held in
    memory, and each call chain of the client by the function it
    denotes on them; a handler threads the store through its calls in
    the order of its [await]s, one request at a time. *)

From Stdlib Require Import ZArith String List Bool Lia DecimalString.
From stdpp Require Import base decidable option list strings gmap sorting.

Open Scope Z_scope.

(** ** JavaScript values *)

Module JS.

(** The values that reach the handlers: JSON bodies, query strings, path
    parameters and store cells.  Numbers are the integers; arrays and
    nested objects do not occur in the modelled requests. *)
Inductive value :=
| Undefined
| Null
| Bool (b : bool)
| Num (n : Z)
| Str (s : string).

#[global] Instance value_eq_dec : EqDecision value.
Proof. solve_decision. Defined.

(** ToBoolean *)
Definition truthy (v : value) : bool :=
  match v with
  | Undefined | Null => false
  | Bool b => b
  | Num n => negb (Z.eqb n 0)
  | Str s => negb (String.eqb s "")
  end.

(** [a || b] *)
Definition or (a b : value) : value := if truthy a then a else b.

(** [a === b] and [a !== b] *)
Definition strict_eq (a b : value) : bool := bool_decide (a = b).

Definition strict_ne (a b : value) : bool := negb (strict_eq a b).

(** [null] and [undefined] *)
Definition nullish (v : value) : bool :=
  match v with Undefined | Null => true | _ => false end.

(** A destructuring default, [{ k = d } = obj]: only [undefined] takes it. *)
Definition default (d v : value) : value :=
  match v with Undefined => d | _ => v end.

(** Number-to-string on the integers. *)
Definition Z_to_string (n : Z) : string := NilZero.string_of_int (Z.to_int n).

Definition ToString (v : value) : string :=
  match v with
  | Undefined => "undefined"
  | Null => "null"
  | Bool true => "true"
  | Bool false => "false"
  | Num n => Z_to_string n
  | Str s => s
  end.

(** Arithmetic leaves the values above only through NaN, which no
    request or cell carries: a numeric result is [None] when it is NaN. *)

(** String-to-number on the decimal integer literals: the empty string is
    0 and an optionally negated digit sequence is its value.  The other
    numeric spellings of JavaScript (surrounding blanks, a leading plus,
    fractions, exponents, radix prefixes, Infinity) are outside the
    integers of this model and read as NaN, like any other text. *)
Definition StringToNumber (s : string) : option Z :=
  if String.eqb s "" then Some 0
  else Z.of_int <$> NilZero.int_of_string s.

Definition ToNumber (v : value) : option Z :=
  match v with
  | Undefined => None
  | Null => Some 0
  | Bool true => Some 1
  | Bool false => Some 0
  | Num n => Some n
  | Str s => StringToNumber s
  end.

Definition is_string (v : value) : bool :=
  match v with Str _ => true | _ => false end.

(** [a + b]: concatenation as soon as one operand is a string. *)
Definition add (a b : value) : option value :=
  if is_string a || is_string b then Some (Str (ToString a +:+ ToString b))
  else x ← ToNumber a; y ← ToNumber b; Some (Num (x + y)).

(** [a - b], with [a] the result of an addition: always numeric. *)
Definition sub (a : option value) (b : value) : option Z :=
  a ← a; x ← ToNumber a; y ← ToNumber b; Some (x - y).

End JS.

Abbreviation jsval := JS.value.

(** A JavaScript object used as a record of named values: request bodies
    and the objects handed to [insert] and [update]. *)
Abbreviation jsobj := (gmap string jsval).

(** Property read [o.k]. *)
Definition prop (o : jsobj) (k : string) : jsval :=
  match o !! k with Some v => v | None => JS.Undefined end.

(** ** Data model: the rows of the four tables *)

Module Municipality.
Record t := mk { id : jsval; name : jsval; province : jsval }.
#[global] Instance eq_dec : EqDecision t.
Proof. solve_decision. Defined.
End Municipality.

Module User.
Record t := mk {
  id : jsval;
  name : jsval;
  email : jsval;
  role : jsval;
  municipality_id : jsval;
  home_address : jsval;
  lat : jsval;
  lng : jsval;
  created_at : Z
}.
#[global] Instance eq_dec : EqDecision t.
Proof. solve_decision. Defined.
End User.

Module Report.
Record t := mk {
  id : jsval;
  title : jsval;
  description : jsval;
  category : jsval;
  lat : jsval;
  lng : jsval;
  address : jsval;
  photo_url : jsval;
  municipality_id : jsval;
  created_by : jsval;
  status : jsval;
  assigned_official : jsval;
  created_at : Z
}.
#[global] Instance eq_dec : EqDecision t.
Proof. solve_decision. Defined.
End Report.

Module Upvote.
Record t := mk { id : jsval; report_id : jsval; user_id : jsval }.
#[global] Instance eq_dec : EqDecision t.
Proof. solve_decision. Defined.
End Upvote.

(** The store behind the [supabase] client: the four tables, and the
    sequence and clock from which it fills generated columns. *)
Module Db.
Record t := mk {
  reports : list Report.t;
  users : list User.t;
  municipalities : list Municipality.t;
  report_upvotes : list Upvote.t;
  next_id : Z;
  clock : Z
}.
End Db.

(** ** The query builder

    A chain [from(..).select(..).eq(..).order(..).range(..)] accumulates
    one request; the store evaluates it as filter, then order, then
    offset and limit, whatever the order of the calls. *)

(** [.eq(column, v)]: the rows whose cell equals [v].  A filter value that
    is no value ([null], [undefined]) matches no row, as in SQL. *)
Definition pg_eq (cell v : jsval) : bool :=
  negb (JS.nullish v) && bool_decide (cell = v).

Definition eq_filter {A} (column : A -> jsval) (v : jsval) (rows : list A) : list A :=
  filter (fun r => pg_eq (column r) v = true) rows.

(** [.order('created_at', { ascending: false })] *)
Fixpoint insert_desc {A} (key : A -> Z) (x : A) (l : list A) : list A :=
  match l with
  | [] => [x]
  | y :: l' => if (key x <? key y)%Z then y :: insert_desc key x l' else x :: l
  end.

Definition order_desc {A} (key : A -> Z) (rows : list A) : list A :=
  foldr (insert_desc key) [] rows.

(** [.range(from, to)]: rows [from..to], both inclusive, counted from 0.
    The client sends offset [from] and limit [to - from + 1]; bounds that
    are not numbers, or that describe no window, make the request fail. *)
Definition range {A} (from : jsval) (to : option Z) (rows : list A)
  : option (list A) :=
  f ← JS.ToNumber from;
  t ← to;
  if (0 <=? f)%Z && (f <=? t)%Z
  then Some (take (Z.to_nat (t - f + 1)) (drop (Z.to_nat f) rows))
  else None.

(** [.single()]: the row when exactly one matches, an error otherwise. *)
Definition single {A} (rows : list A) : option A :=
  match rows with
  | [x] => Some x
  | _ => None
  end.

(** Embedded resources of a [select]: the referenced row, if any. *)
Module UserSummary.
Record t := mk { id : jsval; name : jsval; email : jsval }.
Definition of_user (u : User.t) : t := mk (User.id u) (User.name u) (User.email u).
End UserSummary.

Definition municipality_of (db : Db.t) (mid : jsval) : option Municipality.t :=
  head (eq_filter Municipality.id mid (Db.municipalities db)).

Definition user_summary_of (db : Db.t) (uid : jsval) : option UserSummary.t :=
  UserSummary.of_user <$> head (eq_filter User.id uid (Db.users db)).

(** A report as a [select] returns it: the row with the embedded
    resources the select names ([None] for one it does not name or whose
    reference is empty). *)
Module ReportView.
Record t := mk {
  row : Report.t;
  municipalities : option Municipality.t;
  created_by_user : option UserSummary.t;
  assigned_official_user : option UserSummary.t
}.
End ReportView.

Module UserView.
Record t := mk { row : User.t; municipalities : option Municipality.t }.
End UserView.

(** [*, municipalities:municipality_id (..)] *)
Definition select_with_municipality (db : Db.t) (r : Report.t) : ReportView.t :=
  ReportView.mk r (municipality_of db (Report.municipality_id r)) None None.

(** [*, municipalities:.., created_by_user:created_by (..)] *)
Definition select_with_author (db : Db.t) (r : Report.t) : ReportView.t :=
  ReportView.mk r (municipality_of db (Report.municipality_id r))
    (user_summary_of db (Report.created_by r)) None.

(** [*, municipalities:.., created_by_user:.., assigned_official_user:..] *)
Definition select_full (db : Db.t) (r : Report.t) : ReportView.t :=
  ReportView.mk r (municipality_of db (Report.municipality_id r))
    (user_summary_of db (Report.created_by r))
    (user_summary_of db (Report.assigned_official r)).

Definition select_user (db : Db.t) (u : User.t) : UserView.t :=
  UserView.mk u (municipality_of db (User.municipality_id u)).

(** ** Writes *)

Definition report_columns : list string :=
  ["id"; "title"; "description"; "category"; "lat"; "lng"; "address";
   "photo_url"; "municipality_id"; "created_by"; "status";
   "assigned_official"; "created_at"].

(** The cell a column takes from a written object: the object's value
    when it carries one (a key whose value is [undefined] is not
    serialised), the cell it had otherwise. *)
Definition cell (obj : jsobj) (k : string) (old : jsval) : jsval :=
  match obj !! k with
  | Some JS.Undefined | None => old
  | Some v => v
  end.

(** [created_at] is a timestamp column: it takes numbers only. *)
Definition timestamp_cell (obj : jsobj) (old : Z) : option Z :=
  match obj !! "created_at" with
  | Some JS.Undefined | None => Some old
  | Some (JS.Num z) => Some z
  | Some _ => None
  end.

(** Writing the object [obj] over a row.  The store refuses an object
    with a key that is no column of the table. *)
Definition assign (obj : jsobj) (r : Report.t) : option Report.t :=
  if bool_decide (map_Forall (fun k _ => k ∈ report_columns) obj)
  then ts ← timestamp_cell obj (Report.created_at r);
       Some {| Report.id := cell obj "id" (Report.id r);
               Report.title := cell obj "title" (Report.title r);
               Report.description := cell obj "description" (Report.description r);
               Report.category := cell obj "category" (Report.category r);
               Report.lat := cell obj "lat" (Report.lat r);
               Report.lng := cell obj "lng" (Report.lng r);
               Report.address := cell obj "address" (Report.address r);
               Report.photo_url := cell obj "photo_url" (Report.photo_url r);
               Report.municipality_id := cell obj "municipality_id" (Report.municipality_id r);
               Report.created_by := cell obj "created_by" (Report.created_by r);
               Report.status := cell obj "status" (Report.status r);
               Report.assigned_official := cell obj "assigned_official" (Report.assigned_official r);
               Report.created_at := ts |}
  else None.

(** Modelled from the spec: the column defaults of the [reports] table,
    whose schema is not part of the sources.  A new report is in the
    default open state ("status defaults to open") and has no assignee;
    its id and creation time are generated by the store. *)
Definition default_report (db : Db.t) : Report.t :=
  {| Report.id := JS.Str (JS.Z_to_string (Db.next_id db));
     Report.title := JS.Null;
     Report.description := JS.Null;
     Report.category := JS.Null;
     Report.lat := JS.Null;
     Report.lng := JS.Null;
     Report.address := JS.Null;
     Report.photo_url := JS.Null;
     Report.municipality_id := JS.Null;
     Report.created_by := JS.Null;
     Report.status := JS.Str "open";
     Report.assigned_official := JS.Null;
     Report.created_at := Db.clock db |}.

Definition with_reports (db : Db.t) (rs : list Report.t) : Db.t :=
  {| Db.reports := rs;
     Db.users := Db.users db;
     Db.municipalities := Db.municipalities db;
     Db.report_upvotes := Db.report_upvotes db;
     Db.next_id := Db.next_id db;
     Db.clock := Db.clock db |}.

Definition with_upvotes (db : Db.t) (vs : list Upvote.t) : Db.t :=
  {| Db.reports := Db.reports db;
     Db.users := Db.users db;
     Db.municipalities := Db.municipalities db;
     Db.report_upvotes := vs;
     Db.next_id := Db.next_id db;
     Db.clock := Db.clock db |}.

(** One id drawn from the sequence, one tick of the clock. *)
Definition tick (db : Db.t) : Db.t :=
  {| Db.reports := Db.reports db;
     Db.users := Db.users db;
     Db.municipalities := Db.municipalities db;
     Db.report_upvotes := Db.report_upvotes db;
     Db.next_id := Db.next_id db + 1;
     Db.clock := Db.clock db + 1 |}.

Section Store.

(** The integrity constraints of the [reports] table (foreign keys,
    checks); the schema is not part of the sources, so they are a
    parameter of the model. *)
Variable reports_check : Db.t -> Report.t -> bool.

(** [from('reports').insert(obj).select(..).single()] *)
Definition insert_report (db : Db.t) (obj : jsobj) : option (Db.t * Report.t) :=
  r ← assign obj (default_report db);
  if reports_check db r
  then Some (tick (with_reports db (Db.reports db ++ [r])), r)
  else None.

(** [from('reports').update(obj).eq('id', id).select(..).single()] *)
Definition update_report (db : Db.t) (id : jsval) (obj : jsobj)
  : option (Db.t * Report.t) :=
  r ← single (eq_filter Report.id id (Db.reports db));
  r' ← assign obj r;
  if reports_check db r'
  then Some (with_reports db
               (map (fun x => if pg_eq (Report.id x) id then r' else x) (Db.reports db)),
             r')
  else None.

End Store.

Definition same_upvote (report_id user_id : jsval) (v : Upvote.t) : Prop :=
  Upvote.report_id v = report_id /\ Upvote.user_id v = user_id.

#[global] Instance same_upvote_dec rid uid v : Decision (same_upvote rid uid v).
Proof. unfold same_upvote. apply _. Defined.

(** Modelled from the spec: the uniqueness constraint of the
    [report_upvotes] table, whose schema is not part of the sources ("a
    user has at most one upvote per report", "the store rejects a
    duplicate (report_id, user_id) pair atomically").
    [from('report_upvotes').insert({report_id, user_id})] *)
Definition insert_upvote (db : Db.t) (report_id user_id : jsval) : option Db.t :=
  if bool_decide (Exists (same_upvote report_id user_id) (Db.report_upvotes db))
  then None
  else Some (tick (with_upvotes db
                     (Db.report_upvotes db ++
                      [Upvote.mk (JS.Str (JS.Z_to_string (Db.next_id db))) report_id user_id]))).

(** [from('report_upvotes').delete().eq('report_id', r).eq('user_id', u)] *)
Definition delete_upvotes (db : Db.t) (report_id user_id : jsval) : Db.t :=
  with_upvotes db
    (filter (fun v => ~ (pg_eq (Upvote.report_id v) report_id = true
                         /\ pg_eq (Upvote.user_id v) user_id = true))
            (Db.report_upvotes db)).

(** ** Responses *)

(** The envelopes built by [formatError] and [formatSuccess]. *)
Inductive body (A : Type) :=
| formatError (msg : string)
| formatSuccess (data : A) (message : option string).
Arguments formatError {A} msg.
Arguments formatSuccess {A} data message.

(** [res.status(code).json(b)]; a bare [res.json(b)] has status 200. *)
Record response (A : Type) := respond { status : Z; json : body A }.
Arguments respond {A} status json.
Arguments status {A} r.
Arguments json {A} r.

(** [{ reports, total: reports.length }] *)
Record report_list := mk_report_list { reports : list ReportView.t; total : Z }.

Definition listing (rs : list ReportView.t) : report_list :=
  mk_report_list rs (Z.of_nat (length rs)).

(** ** Route handlers

    Each handler is given what the middleware before it leaves in the
    request: the authenticated user [req.user], the path parameter
    (always a string), and [req.query] (whose values are the strings of
    the query string) or [req.body] (parsed JSON).  A handler returns
    the store it leaves and its response; a handler that only reads
    returns its response. *)

Section Handlers.

(** [getMunicipalityFromCoordinates] of utils/helpers.js, the geocoding
    collaborator: the municipality id of a location, a falsy value when
    there is none, [None] when the lookup throws. *)
Variable getMunicipalityFromCoordinates : jsval -> jsval -> option jsval.

Variable reports_check : Db.t -> Report.t -> bool.

(** [router.post('/')]: create a report (citizens). *)
Definition post_report (db : Db.t) (user : User.t) (body : jsobj)
  : Db.t * response ReportView.t :=
  let title := prop body "title" in
  let description := prop body "description" in
  let category := prop body "category" in
  let lat := prop body "lat" in
  let lng := prop body "lng" in
  let address := prop body "address" in
  let photo_url := prop body "photo_url" in
  let userId := User.id user in
  let municipalityId := User.municipality_id user in
  match (if negb (JS.truthy municipalityId)
         then getMunicipalityFromCoordinates lat lng
         else Some municipalityId) with
  | None => (db, respond 500 (formatError "Internal server error"))
  | Some municipalityId =>
      if negb (JS.truthy municipalityId)
      then (db, respond 400
                  (formatError "Could not determine municipality for this location"))
      else
        match insert_report reports_check db
                (<["title" := title]>
                 (<["description" := description]>
                 (<["category" := category]>
                 (<["lat" := lat]>
                 (<["lng" := lng]>
                 (<["address" := address]>
                 (<["photo_url" := photo_url]>
                 (<["municipality_id" := municipalityId]>
                 (<["created_by" := userId]> ∅))))))))) with
        | None => (db, respond 400 (formatError "Failed to create report"))
        | Some (db', report) =>
            (db', respond 201
                    (formatSuccess (select_with_author db' report)
                                   (Some "Report created successfully")))
        end
  end.

(** The filters shared by the two listings: [status] and [category],
    each applied when the query carries a truthy value. *)
Definition optional_eq (column : Report.t -> jsval) (v : jsval)
           (rows : list Report.t) : list Report.t :=
  if JS.truthy v then eq_filter column v rows else rows.

(** [router.get('/mine')]: the caller's own reports (citizens). *)
Definition get_reports_mine (db : Db.t) (user : User.t) (query : jsobj)
  : response report_list :=
  let userId := User.id user in
  let status := prop query "status" in
  let category := prop query "category" in
  let limit := JS.default (JS.Num 50) (prop query "limit") in
  let offset := JS.default (JS.Num 0) (prop query "offset") in
  let matching :=
    optional_eq Report.category category
      (optional_eq Report.status status
         (eq_filter Report.created_by userId (Db.reports db))) in
  match range offset (JS.sub (JS.add offset limit) (JS.Num 1))
              (order_desc Report.created_at matching) with
  | None => respond 400 (formatError "Failed to fetch reports")
  | Some rows =>
      respond 200
        (formatSuccess (listing (map (select_with_municipality db) rows)) None)
  end.

(** [router.get('/')]: the reports of a municipality (officials). *)
Definition get_reports (db : Db.t) (user : User.t) (query : jsobj)
  : response report_list :=
  let municipality_id := prop query "municipality_id" in
  let status := prop query "status" in
  let category := prop query "category" in
  let limit := JS.default (JS.Num 50) (prop query "limit") in
  let offset := JS.default (JS.Num 0) (prop query "offset") in
  let userMunicipalityId := User.municipality_id user in
  let targetMunicipalityId := JS.or municipality_id userMunicipalityId in
  if JS.strict_ne targetMunicipalityId userMunicipalityId
  then respond 403
         (formatError "Access denied to reports from other municipalities")
  else
    let matching :=
      optional_eq Report.category category
        (optional_eq Report.status status
           (eq_filter Report.municipality_id targetMunicipalityId (Db.reports db))) in
    match range offset (JS.sub (JS.add offset limit) (JS.Num 1))
                (order_desc Report.created_at matching) with
    | None => respond 400 (formatError "Failed to fetch reports")
    | Some rows =>
        respond 200 (formatSuccess (listing (map (select_full db) rows)) None)
    end.

(** The access predicate of the single-report read. *)
Definition canAccess (currentUser : User.t) (report : Report.t) : bool :=
  (JS.strict_eq (User.role currentUser) (JS.Str "citizen")
   && JS.strict_eq (Report.created_by report) (User.id currentUser))
  || (JS.strict_eq (User.role currentUser) (JS.Str "official")
      && JS.strict_eq (Report.municipality_id report)
                      (User.municipality_id currentUser)).

(** [router.get('/:id')]: one report by id (any authenticated user). *)
Definition get_report (db : Db.t) (currentUser : User.t) (id : string)
  : response ReportView.t :=
  match single (eq_filter Report.id (JS.Str id) (Db.reports db)) with
  | None => respond 404 (formatError "Report not found")
  | Some report =>
      if negb (canAccess currentUser report)
      then respond 403 (formatError "Access denied")
      else respond 200 (formatSuccess (select_full db report) None)
  end.

(** [router.post('/:id/upvote')]: toggle the caller's upvote (citizens).
    The payload is the [upvoted] flag. *)
Definition post_upvote (db : Db.t) (user : User.t) (reportId : string)
  : Db.t * response bool :=
  let userId := User.id user in
  match single (eq_filter Report.id (JS.Str reportId) (Db.reports db)) with
  | None => (db, respond 404 (formatError "Report not found"))
  | Some report =>
      if JS.strict_eq (Report.created_by report) userId
      then (db, respond 400 (formatError "Cannot upvote your own report"))
      else
        match single (eq_filter Upvote.user_id userId
                        (eq_filter Upvote.report_id (JS.Str reportId)
                           (Db.report_upvotes db))) with
        | Some existingUpvote =>
            (delete_upvotes db (JS.Str reportId) userId,
             respond 200 (formatSuccess false (Some "Upvote removed")))
        | None =>
            match insert_upvote db (JS.Str reportId) userId with
            | None => (db, respond 400 (formatError "Failed to add upvote"))
            | Some db' =>
                (db', respond 200 (formatSuccess true (Some "Report upvoted")))
            end
        end
  end.

(** The lookup of the assignee: a user with that id who is an official
    of the acting official's municipality. *)
Definition find_official (db : Db.t) (currentUser : User.t) (assignee : jsval)
  : option User.t :=
  single (eq_filter User.municipality_id (User.municipality_id currentUser)
            (eq_filter User.role (JS.Str "official")
               (eq_filter User.id assignee (Db.users db)))).

(** The last step of the update: the body is written as it is. *)
Definition apply_updates (db : Db.t) (id : string) (updates : jsobj)
  : Db.t * response ReportView.t :=
  match update_report reports_check db (JS.Str id) updates with
  | None => (db, respond 400 (formatError "Failed to update report"))
  | Some (db', updatedReport) =>
      (db', respond 200
              (formatSuccess (select_full db' updatedReport)
                             (Some "Report updated successfully")))
  end.

(** [router.put('/:id')]: update a report (officials); [updates] is
    [req.body] as the validation middleware leaves it. *)
Definition put_report (db : Db.t) (currentUser : User.t) (id : string)
           (updates : jsobj) : Db.t * response ReportView.t :=
  match single (eq_filter Report.id (JS.Str id) (Db.reports db)) with
  | None => (db, respond 404 (formatError "Report not found"))
  | Some report =>
      if JS.strict_ne (Report.municipality_id report)
                      (User.municipality_id currentUser)
      then (db, respond 403 (formatError "Access denied"))
      else if JS.truthy (prop updates "assigned_official")
      then
        match find_official db currentUser (prop updates "assigned_official") with
        | None => (db, respond 400 (formatError "Invalid official assignment"))
        | Some official => apply_updates db id updates
        end
      else apply_updates db id updates
  end.

End Handlers.

(** *** The users router *)

Definition canAccessUser (currentUser userData : User.t) : bool :=
  JS.strict_eq (User.id currentUser) (User.id userData)
  || (JS.strict_eq (User.role currentUser) (JS.Str "official")
      && JS.strict_eq (User.municipality_id currentUser)
                      (User.municipality_id userData)).

(** [router.get('/:id')] of routes/users.js *)
Definition get_user (db : Db.t) (currentUser : User.t) (id : string)
  : response UserView.t :=
  match single (eq_filter User.id (JS.Str id) (Db.users db)) with
  | None => respond 404 (formatError "User not found")
  | Some userData =>
      if negb (canAccessUser currentUser userData)
      then respond 403 (formatError "Access denied")
      else respond 200 (formatSuccess (select_user db userData) None)
  end.

(** [router.get('/me')] of routes/users.js *)
Definition get_me (db : Db.t) (currentUser : User.t) : response UserView.t :=
  match single (eq_filter User.id (User.id currentUser) (Db.users db)) with
  | None => respond 404 (formatError "User not found")
  | Some userData => respond 200 (formatSuccess (select_user db userData) None)
  end.

(** *** The update route and its body validation *)

(** The columns of a report that no update may change. *)
Definition immutable_columns : list string := ["id"; "created_by"; "municipality_id"].

(** Modelled from the spec: the body validation of the update route,
    [validateRequest(updateReportSchema)] of middleware/validation.js,
    which is not part of the sources.  The update is "a partial patch
    over allowed mutable fields"; [created_by], [municipality_id] and
    [id] "are immutable and must be rejected or ignored if present in the
    patch".  A validator either stops the request ([None]) or hands a
    body on to the handler; it conforms when the body it hands on carries
    none of the immutable columns. *)
Definition conforming_validator (validate : jsobj -> option jsobj) : Prop :=
  forall body updates,
    validate body = Some updates ->
    forall k, k ∈ immutable_columns -> updates !! k = None.

(** Modelled from the spec: a validator that rejects a body naming an
    immutable column. *)
Definition reject_immutable (body : jsobj) : option jsobj :=
  if bool_decide (Forall (fun k => body !! k = None) immutable_columns)
  then Some body
  else None.

(** Modelled from the spec: a validator that ignores the immutable
    columns of a body. *)
Definition ignore_immutable (body : jsobj) : option jsobj :=
  Some (foldr delete body immutable_columns).

(** [router.put('/:id', .., validateRequest(updateReportSchema), handler)]:
    the handler runs on the body the validator hands on; [None] when the
    validator stops the request. *)
Definition put_report_route (validate : jsobj -> option jsobj)
           (reports_check : Db.t -> Report.t -> bool)
           (db : Db.t) (currentUser : User.t) (id : string) (body : jsobj)
  : option (Db.t * response ReportView.t) :=
  updates ← validate body;
  Some (put_report reports_check db currentUser id updates).

(** The cell of a row under a column name. *)
Definition column_value (k : string) (r : Report.t) : jsval :=
  if decide (k = "id") then Report.id r
  else if decide (k = "title") then Report.title r
  else if decide (k = "description") then Report.description r
  else if decide (k = "category") then Report.category r
  else if decide (k = "lat") then Report.lat r
  else if decide (k = "lng") then Report.lng r
  else if decide (k = "address") then Report.address r
  else if decide (k = "photo_url") then Report.photo_url r
  else if decide (k = "municipality_id") then Report.municipality_id r
  else if decide (k = "created_by") then Report.created_by r
  else if decide (k = "status") then Report.status r
  else if decide (k = "assigned_official") then Report.assigned_official r
  else if decide (k = "created_at") then JS.Num (Report.created_at r)
  else JS.Undefined.

(** ** Routing

    An Express router tries its routes in the order of registration and
    runs the first whose method and path pattern match the request; the
    handlers here always answer, so no later route is tried. *)

Inductive method := GET | POST | PUT.

#[global] Instance method_eq_dec : EqDecision method.
Proof. solve_decision. Defined.

(** A pattern segment: literal text, or a named parameter [:name]. *)
Inductive segment :=
| Lit (s : string)
| Param (name : string).

(** Matching a request path, given by its segments below the mount
    point, against a pattern; the bindings make up [req.params]. *)
Fixpoint match_path (pattern : list segment) (path : list string)
  : option (list (string * string)) :=
  match pattern, path with
  | [], [] => Some []
  | Lit s :: pattern', x :: path' =>
      if String.eqb s x then match_path pattern' path' else None
  | Param name :: pattern', x :: path' =>
      cons (name, x) <$> match_path pattern' path'
  | _, _ => None
  end.

Fixpoint dispatch {H} (routes : list (method * list segment * H))
         (m : method) (path : list string) : option (H * list (string * string)) :=
  match routes with
  | [] => None
  | (m', pattern, h) :: routes' =>
      match (if bool_decide (m' = m) then match_path pattern path else None) with
      | Some params => Some (h, params)
      | None => dispatch routes' m path
      end
  end.

Definition param (params : list (string * string)) (name : string) : string :=
  match list_find (fun kv => kv.1 = name) params with
  | Some (_, kv) => kv.2
  | None => ""
  end.

(** The routes of routes/users.js, as registered. *)
Inductive users_handler := GetUser | GetMe.

Definition users_router : list (method * list segment * users_handler) :=
  [ (GET, [Param "id"], GetUser);
    (GET, [Lit "me"], GetMe) ].

(** A request to the users router by an authenticated caller; [None]
    when no route matches. *)
Definition users_request (db : Db.t) (currentUser : User.t)
           (m : method) (path : list string) : option (response UserView.t) :=
  match dispatch users_router m path with
  | Some (GetUser, params) => Some (get_user db currentUser (param params "id"))
  | Some (GetMe, _) => Some (get_me db currentUser)
  | None => None
  end.

(** The routes of the reports router, as registered. *)
Inductive reports_handler :=
| PostReport | GetReportsMine | GetReports | GetReport | PostUpvote | PutReport.

Definition reports_router : list (method * list segment * reports_handler) :=
  [ (POST, [], PostReport);
    (GET, [Lit "mine"], GetReportsMine);
    (GET, [], GetReports);
    (GET, [Param "id"], GetReport);
    (POST, [Param "id"; Lit "upvote"], PostUpvote);
    (PUT, [Param "id"], PutReport) ].

(** ** Store invariants *)

(** Primary keys. *)
Definition unique_report_ids (db : Db.t) : Prop :=
  NoDup (Report.id <$> Db.reports db).

Definition unique_user_ids (db : Db.t) : Prop :=
  NoDup (User.id <$> Db.users db).

(** At most one upvote row per (report, user) pair. *)
Definition upvote_pair (v : Upvote.t) : jsval * jsval :=
  (Upvote.report_id v, Upvote.user_id v).

Definition unique_upvotes (db : Db.t) : Prop :=
  NoDup (upvote_pair <$> Db.report_upvotes db).

Definition has_upvote (db : Db.t) (report_id user_id : jsval) : Prop :=
  Exists (same_upvote report_id user_id) (Db.report_upvotes db).

Definition upvote_count (db : Db.t) (report_id user_id : jsval) : nat :=
  length (filter (same_upvote report_id user_id) (Db.report_upvotes db)).

(** Newest first: no report is older than one that follows it. *)
Definition newest_first : list Report.t -> Prop :=
  StronglySorted (fun a b => Report.created_at b <= Report.created_at a).

(** ** A sample store

    The scenario of the specification: municipalities 1 and 2, citizens
    A and D, officials B and E of municipality 2, C and F of 1. *)

Module Sample.

Definition m1 : Municipality.t :=
  Municipality.mk (JS.Str "m1") (JS.Str "Tshwane") (JS.Str "Gauteng").
Definition m2 : Municipality.t :=
  Municipality.mk (JS.Str "m2") (JS.Str "Mangaung") (JS.Str "Free State").

Definition person (id role municipality : string) : User.t :=
  User.mk (JS.Str id) (JS.Str id) (JS.Str (id +:+ "@example.org"))
          (JS.Str role) (JS.Str municipality) JS.Null JS.Null JS.Null 0.

Definition citizenA := person "a" "citizen" "m1".
Definition citizenD := person "d" "citizen" "m1".
Definition officialB := person "b" "official" "m2".
Definition officialC := person "c" "official" "m1".
Definition officialE := person "e" "official" "m2".
Definition officialF := person "f" "official" "m1".

(** A citizen whose municipality is not resolved yet. *)
Definition citizenN : User.t :=
  User.mk (JS.Str "n") (JS.Str "n") (JS.Str "n@example.org")
          (JS.Str "citizen") JS.Null JS.Null JS.Null JS.Null 0.

Definition report (id author municipality : string) (at_ : Z) : Report.t :=
  Report.mk (JS.Str id) (JS.Str "Pothole") (JS.Str "Deep pothole")
            (JS.Str "roads") (JS.Num 1) (JS.Num 2) (JS.Str "1 Main Rd")
            JS.Null (JS.Str municipality) (JS.Str author) (JS.Str "open")
            JS.Null at_.

Definition X := report "x" "a" "m1" 10.
Definition Y := report "y" "a" "m1" 11.
Definition W := report "w" "a" "m1" 12.
Definition V := report "v" "d" "m2" 13.

Definition db0 : Db.t :=
  Db.mk [X; Y; W; V]
        [citizenA; citizenD; citizenN; officialB; officialC; officialE; officialF]
        [m1; m2] [] 100 20.

(** The same store once D has upvoted X. *)
Definition db1 : Db.t :=
  with_upvotes db0 [Upvote.mk (JS.Str "99") (JS.Str "x") (JS.Str "d")].

Definition geocode (lat lng : jsval) : option jsval :=
  if bool_decide (lat = JS.Num 1) then Some (JS.Str "m1") else Some JS.Null.

Definition accept (db : Db.t) (r : Report.t) : bool := true.

Definition new_report : jsobj :=
  <["title" := JS.Str "Leak"]>
    (<["description" := JS.Str "Burst pipe"]>
    (<["category" := JS.Str "water"]>
    (<["lat" := JS.Num 1]>
    (<["lng" := JS.Num 2]>
    (<["address" := JS.Str "2 Main Rd"]> ∅))))).

End Sample.

(** ** The municipalities router *)

Section Municipalities.

(** The order of the store on the [name] column (its collation),
    [name_le a b] when [a] sorts no later than [b]. *)
Variable name_le : jsval -> jsval -> bool.

(** [.order('name')], ascending *)
Fixpoint insert_asc {A} (key : A -> jsval) (x : A) (l : list A) : list A :=
  match l with
  | [] => [x]
  | y :: l' => if name_le (key x) (key y) then x :: l else y :: insert_asc key x l'
  end.

Definition order_asc {A} (key : A -> jsval) (rows : list A) : list A :=
  foldr (insert_asc key) [] rows.

(** [router.get('/')] of the municipalities router: all municipalities,
    by name (public). *)
Definition get_municipalities (db : Db.t) : response (list Municipality.t) :=
  respond 200
    (formatSuccess (order_asc Municipality.name (Db.municipalities db)) None).

End Municipalities.

(** [router.get('/:id')] of the municipalities router (public). *)
Definition get_municipality (db : Db.t) (id : string) : response Municipality.t :=
  match single (eq_filter Municipality.id (JS.Str id) (Db.municipalities db)) with
  | None => respond 404 (formatError "Municipality not found")
  | Some municipality => respond 200 (formatSuccess municipality None)
  end.

Inductive municipalities_handler := GetMunicipalities | GetMunicipality.

Definition municipalities_router
  : list (method * list segment * municipalities_handler) :=
  [ (GET, [], GetMunicipalities);
    (GET, [Param "id"], GetMunicipality) ].

(** ** The auth router *)

(** What [supabaseAuth.auth.signUp] answers: an error with its message,
    no error but no user, or the new identity. *)
Inductive signup_result :=
| SignUpError (message : string)
| SignUpNoUser
| SignUpUser (id : jsval).

(** What [supabaseAuth.auth.signInWithPassword] answers: an error, no
    error but a user or a session missing, or the identity with the
    tokens of its session. *)
Inductive signin_result :=
| SignInError
| SignInIncomplete
| SignInSession (id access_token refresh_token expires_at : jsval).

(** The calls a handler makes on the admin interface of the identity
    provider. *)
Inductive auth_call :=
| deleteUser (id : jsval).

(** [{ user, access_token, refresh_token, expires_at }] *)
Record login_data := mk_login_data {
  user : User.t;
  access_token : jsval;
  refresh_token : jsval;
  expires_at : jsval
}.

Definition with_users (db : Db.t) (us : list User.t) : Db.t :=
  {| Db.reports := Db.reports db;
     Db.users := us;
     Db.municipalities := Db.municipalities db;
     Db.report_upvotes := Db.report_upvotes db;
     Db.next_id := Db.next_id db;
     Db.clock := Db.clock db |}.

Section Auth.

(** The identity provider, the geocoder and the integrity constraints of
    the [users] table are collaborators of the handlers. *)
Variable signUp : jsval -> jsval -> signup_result.
Variable signInWithPassword : jsval -> jsval -> signin_result.
Variable getMunicipalityFromCoordinates : jsval -> jsval -> option jsval.
Variable users_check : Db.t -> User.t -> bool.

(** [from('users').insert({ id, name, email, role, municipality_id,
    home_address, lat, lng }).select().single()].  A key whose value is
    [undefined] is not serialised and its column is left null;
    [created_at] is filled by the store. *)
Definition insert_user (db : Db.t)
           (id name email role municipality_id home_address lat lng : jsval)
  : option (Db.t * User.t) :=
  let u := {| User.id := JS.default JS.Null id;
              User.name := JS.default JS.Null name;
              User.email := JS.default JS.Null email;
              User.role := JS.default JS.Null role;
              User.municipality_id := JS.default JS.Null municipality_id;
              User.home_address := JS.default JS.Null home_address;
              User.lat := JS.default JS.Null lat;
              User.lng := JS.default JS.Null lng;
              User.created_at := Db.clock db |} in
  if users_check db u
  then Some (tick (with_users db (Db.users db ++ [u])), u)
  else None.

(** [router.post('/register')].  Beside the store and the response, the
    handler returns the admin calls it made on the identity provider. *)
Definition post_register (db : Db.t) (body : jsobj)
  : Db.t * list auth_call * response User.t :=
  let name := prop body "name" in
  let email := prop body "email" in
  let password := prop body "password" in
  let role := prop body "role" in
  let municipality_id := prop body "municipality_id" in
  let home_address := prop body "home_address" in
  let lat := prop body "lat" in
  let lng := prop body "lng" in
  match signUp email password with
  | SignUpError message => (db, [], respond 400 (formatError message))
  | SignUpNoUser =>
      (db, [], respond 400 (formatError "Failed to create user account"))
  | SignUpUser authId =>
      match (if JS.strict_eq role (JS.Str "citizen")
                && JS.truthy lat && JS.truthy lng
                && negb (JS.truthy municipality_id)
             then getMunicipalityFromCoordinates lat lng
             else Some municipality_id) with
      | None => (db, [], respond 500 (formatError "Internal server error"))
      | Some finalMunicipalityId =>
          match insert_user db authId name email role finalMunicipalityId
                            home_address lat lng with
          | None =>
              (db, [deleteUser authId],
               respond 400 (formatError "Failed to create user profile"))
          | Some (db', userData) =>
              (db', [],
               respond 201
                 (formatSuccess userData (Some "User registered successfully")))
          end
      end
  end.

(** [router.post('/login')] *)
Definition post_login (db : Db.t) (body : jsobj) : response login_data :=
  let email := prop body "email" in
  let password := prop body "password" in
  match signInWithPassword email password with
  | SignInError => respond 401 (formatError "Invalid email or password")
  | SignInIncomplete => respond 401 (formatError "Login failed")
  | SignInSession authId access refresh expires =>
      match single (eq_filter User.id authId (Db.users db)) with
      | None => respond 404 (formatError "User profile not found")
      | Some userData =>
          respond 200
            (formatSuccess (mk_login_data userData access refresh expires)
                           (Some "Login successful"))
      end
  end.

End Auth.

(** ** A second scenario: registration and the directory *)

Module Scenario.

(** Names are compared as texts, byte by byte. *)
Definition by_text (a b : jsval) : bool :=
  String.leb (JS.ToString a) (JS.ToString b).

(** A provider that knows one account to create and one to sign in. *)
Definition signUp (email password : jsval) : signup_result :=
  if bool_decide (email = JS.Str "z@example.org") then SignUpUser (JS.Str "z")
  else SignUpError "User already registered".

Definition signIn (email password : jsval) : signin_result :=
  if bool_decide (email = JS.Str "a@example.org")
  then SignInSession (JS.Str "a") (JS.Str "at") (JS.Str "rt") (JS.Num 3600)
  else SignInError.

Definition accept_user (db : Db.t) (u : User.t) : bool := true.

Definition registration : jsobj :=
  <["name" := JS.Str "Zola"]>
    (<["email" := JS.Str "z@example.org"]>
    (<["password" := JS.Str "secret"]>
    (<["role" := JS.Str "citizen"]>
    (<["lat" := JS.Num 1]>
    (<["lng" := JS.Num 2]> ∅))))).

Definition credentials : jsobj :=
  <["email" := JS.Str "a@example.org"]> {["password" := JS.Str "secret"]}.

End Scenario.

(** ** Rows as the handlers write them *)

(** The fields of the body that [post_report] reads. *)
Definition report_fields : list string :=
  ["title"; "description"; "category"; "lat"; "lng"; "address"; "photo_url"].

(** The row [post_report] asks the store for, given the municipality it
    resolved: the seven fields of the body (null where the body has
    none), the caller as author, and the defaults of the table. *)
Definition created_report (db : Db.t) (user : User.t) (body : jsobj)
           (municipalityId : jsval) : Report.t :=
  {| Report.id := JS.Str (JS.Z_to_string (Db.next_id db));
     Report.title := JS.default JS.Null (prop body "title");
     Report.description := JS.default JS.Null (prop body "description");
     Report.category := JS.default JS.Null (prop body "category");
     Report.lat := JS.default JS.Null (prop body "lat");
     Report.lng := JS.default JS.Null (prop body "lng");
     Report.address := JS.default JS.Null (prop body "address");
     Report.photo_url := JS.default JS.Null (prop body "photo_url");
     Report.municipality_id := JS.default JS.Null municipalityId;
     Report.created_by := JS.default JS.Null (User.id user);
     Report.status := JS.Str "open";
     Report.assigned_official := JS.Null;
     Report.created_at := Db.clock db |}.

(** The profile row [post_register] asks the store for, given the
    identity it was issued and the municipality it settled on. *)
Definition registered_profile (db : Db.t) (body : jsobj)
           (authId finalMunicipalityId : jsval) : User.t :=
  {| User.id := JS.default JS.Null authId;
     User.name := JS.default JS.Null (prop body "name");
     User.email := JS.default JS.Null (prop body "email");
     User.role := JS.default JS.Null (prop body "role");
     User.municipality_id := JS.default JS.Null finalMunicipalityId;
     User.home_address := JS.default JS.Null (prop body "home_address");
     User.lat := JS.default JS.Null (prop body "lat");
     User.lng := JS.default JS.Null (prop body "lng");
     User.created_at := Db.clock db |}.

(** Whether [post_register] asks the geocoder: a citizen who sends both
    coordinates, truthy, and no municipality. *)
Definition geocoded_registration (body : jsobj) : bool :=
  JS.strict_eq (prop body "role") (JS.Str "citizen")
  && JS.truthy (prop body "lat") && JS.truthy (prop body "lng")
  && negb (JS.truthy (prop body "municipality_id")).

(** * Properties *)

(** ** Equality tests and filters *)

Lemma strict_eq_true a b : JS.strict_eq a b = true <-> a = b.
Proof. unfold JS.strict_eq. apply bool_decide_eq_true. Qed.

Lemma strict_eq_false a b : JS.strict_eq a b = false <-> a <> b.
Proof. unfold JS.strict_eq. apply bool_decide_eq_false. Qed.

Lemma strict_ne_false a b : JS.strict_ne a b = false <-> a = b.
Proof.
  unfold JS.strict_ne. rewrite negb_false_iff. apply strict_eq_true.
Qed.

Lemma strict_ne_true a b : JS.strict_ne a b = true <-> a <> b.
Proof.
  unfold JS.strict_ne. rewrite negb_true_iff. apply strict_eq_false.
Qed.

Lemma truthy_not_nullish v : JS.truthy v = true -> JS.nullish v = false.
Proof. by destruct v. Qed.

Lemma pg_eq_true cell v : pg_eq cell v = true -> cell = v.
Proof.
  unfold pg_eq. intros [_ H]%andb_true_iff. by apply bool_decide_eq_true in H.
Qed.

Lemma pg_eq_iff cell v :
  JS.nullish v = false -> pg_eq cell v = true <-> cell = v.
Proof.
  intros Hv. unfold pg_eq. rewrite Hv. simpl. apply bool_decide_eq_true.
Qed.

Lemma elem_of_eq_filter {A} (column : A -> jsval) v rows r :
  r ∈ eq_filter column v rows <-> pg_eq (column r) v = true /\ r ∈ rows.
Proof.
  unfold eq_filter.
  apply (list_elem_of_filter (fun x => pg_eq (column x) v = true)).
Qed.

Lemma eq_filter_nil {A} (column : A -> jsval) v rows :
  (forall r, r ∈ rows -> column r <> v) -> eq_filter column v rows = [].
Proof.
  intros Hno. unfold eq_filter. induction rows as [|x rows IH]; [done|].
  rewrite filter_cons_False.
  - apply IH. intros r Hr. apply Hno. by right.
  - intros Hx%pg_eq_true. apply (Hno x); [by left|done].
Qed.

(** A primary-key lookup finds the row that carries the key. *)
Lemma eq_filter_key {A} (key : A -> jsval) v rows r :
  NoDup (key <$> rows) -> r ∈ rows -> key r = v -> JS.nullish v = false ->
  eq_filter key v rows = [r].
Proof.
  intros Hnd Hin Hk Hv. unfold eq_filter.
  induction rows as [|x rows IH]; [by apply elem_of_nil in Hin|].
  rewrite fmap_cons in Hnd. apply NoDup_cons in Hnd as [Hx Hnd].
  apply elem_of_cons in Hin as [<-|Hin].
  - rewrite filter_cons_True by (by apply pg_eq_iff).
    f_equal. apply (eq_filter_nil key v rows).
    intros r' Hr' Hk'. apply Hx. rewrite Hk, <- Hk'.
    by apply list_elem_of_fmap_2.
  - rewrite filter_cons_False; [by apply IH|].
    intros Hx'%pg_eq_true. apply Hx. rewrite Hx', <- Hk.
    by apply list_elem_of_fmap_2.
Qed.

Lemma single_Some {A} (rows : list A) x : single rows = Some x <-> rows = [x].
Proof.
  destruct rows as [|y [|z rows]]; simpl; split; intros H;
    try discriminate; congruence.
Qed.

Lemma single_eq_filter_elem {A} (column : A -> jsval) v rows r :
  single (eq_filter column v rows) = Some r -> r ∈ rows /\ column r = v.
Proof.
  intros H%single_Some.
  assert (Hr : r ∈ eq_filter column v rows) by (rewrite H; by left).
  apply elem_of_eq_filter in Hr as [Hr%pg_eq_true ?]. done.
Qed.

(** ** Single-report retrieval *)

Lemma canAccess_iff currentUser report :
  canAccess currentUser report = true <->
  (User.role currentUser = JS.Str "citizen"
   /\ Report.created_by report = User.id currentUser)
  \/ (User.role currentUser = JS.Str "official"
      /\ Report.municipality_id report = User.municipality_id currentUser).
Proof.
  unfold canAccess.
  rewrite orb_true_iff, !andb_true_iff, !strict_eq_true. tauto.
Qed.

(** C2.  Reading one report by id: when no report has the id the answer
    is 404 "Report not found", whoever the caller is, so existence is
    settled before ownership is looked at; when the report exists it is
    returned if the caller is a citizen who created it or an official of
    its municipality, and every other caller gets 403 "Access denied". *)
Theorem get_report_existence_then_ownership db currentUser id :
  unique_report_ids db ->
  ((forall r, r ∈ Db.reports db -> Report.id r <> JS.Str id) ->
   get_report db currentUser id = respond 404 (formatError "Report not found"))
  /\
  (forall r, r ∈ Db.reports db -> Report.id r = JS.Str id ->
     let granted :=
       (User.role currentUser = JS.Str "citizen"
        /\ Report.created_by r = User.id currentUser)
       \/ (User.role currentUser = JS.Str "official"
           /\ Report.municipality_id r = User.municipality_id currentUser) in
     (granted ->
      get_report db currentUser id
      = respond 200 (formatSuccess (select_full db r) None))
     /\ (~ granted ->
         get_report db currentUser id = respond 403 (formatError "Access denied"))).
Proof.
  intros Hids. split.
  - intros Hno. unfold get_report. by rewrite eq_filter_nil.
  - intros r Hr Hid granted. unfold get_report.
    rewrite (eq_filter_key Report.id _ _ r) by done. simpl.
    subst granted. rewrite <- canAccess_iff.
    destruct (canAccess currentUser r); simpl; split; intros H;
      solve [done | by destruct H].
Qed.

Lemma sample_unique_report_ids : unique_report_ids Sample.db0.
Proof. apply (bool_decide_unpack _). vm_compute. exact I. Defined.

Lemma get_report_existence_then_ownership_witness :
  get_report Sample.db0 Sample.citizenA "x"
  = respond 200 (formatSuccess (select_full Sample.db0 Sample.X) None)
  /\ get_report Sample.db0 Sample.citizenD "x"
     = respond 403 (formatError "Access denied")
  /\ get_report Sample.db0 Sample.officialB "nope"
     = respond 404 (formatError "Report not found").
Proof.
  split; [|split].
  - destruct (get_report_existence_then_ownership
                Sample.db0 Sample.citizenA "x" sample_unique_report_ids)
      as [_ H].
    apply (H Sample.X); [apply list_elem_of_here|done|]. left. done.
  - destruct (get_report_existence_then_ownership
                Sample.db0 Sample.citizenD "x" sample_unique_report_ids)
      as [_ H].
    apply (H Sample.X); [apply list_elem_of_here|done|].
    intros [[_ H']|[H' _]]; discriminate.
  - apply (get_report_existence_then_ownership
             Sample.db0 Sample.officialB "nope" sample_unique_report_ids).
    intros r Hr. vm_compute in Hr.
    repeat (apply elem_of_cons in Hr as [->|Hr]; [discriminate|]).
    by apply elem_of_nil in Hr.
Defined.

(** ** Listings: what a page can contain *)

Lemma elem_of_insert_desc {A} (key : A -> Z) x l y :
  y ∈ insert_desc key x l <-> y = x \/ y ∈ l.
Proof.
  induction l as [|z l IH]; simpl.
  - rewrite list_elem_of_singleton, elem_of_nil. tauto.
  - destruct (key x <? key z)%Z; rewrite !elem_of_cons; [rewrite IH|]; tauto.
Qed.

Lemma elem_of_order_desc {A} (key : A -> Z) l y :
  y ∈ order_desc key l <-> y ∈ l.
Proof.
  unfold order_desc. induction l as [|x l IH]; simpl; [done|].
  rewrite elem_of_insert_desc, IH, elem_of_cons. tauto.
Qed.

Lemma range_elem_of {A} from to (rows page : list A) x :
  range from to rows = Some page -> x ∈ page -> x ∈ rows.
Proof.
  unfold range. intros H Hx.
  destruct (JS.ToNumber from) as [f|]; [|done].
  destruct to as [t|]; [|done]. simpl in H.
  destruct (_ && _); [|done]. injection H as <-.
  eapply subseteq_drop, subseteq_take, Hx.
Qed.

Lemma optional_eq_elem_of column v rows r :
  r ∈ optional_eq column v rows -> r ∈ rows.
Proof.
  unfold optional_eq. destruct (JS.truthy v); [|done].
  by intros [_ ?]%elem_of_eq_filter.
Qed.

Lemma prop_delete (o : jsobj) k : prop (delete k o) k = JS.Undefined.
Proof. unfold prop. by rewrite lookup_delete_eq. Qed.

Lemma prop_delete_ne (o : jsobj) k k' :
  k <> k' -> prop (delete k o) k' = prop o k'.
Proof. intros. unfold prop. by rewrite lookup_delete_ne. Qed.

(** ** The official listing *)

(** C1, as what the handler does.  For an official: a truthy target
    [municipality_id] that differs from the caller's own is answered 403
    with no report data; a target that is absent or falsy (the empty
    string) is filled with the caller's own municipality, the request
    being answered as if the parameter were not there; and whenever the
    listing succeeds, every report in it belongs to the caller's
    municipality. *)
Theorem get_reports_tenant_boundary db user query :
  User.role user = JS.Str "official" ->
  (JS.truthy (prop query "municipality_id") = true ->
   prop query "municipality_id" <> User.municipality_id user ->
   get_reports db user query
   = respond 403
       (formatError "Access denied to reports from other municipalities"))
  /\ (JS.truthy (prop query "municipality_id") = false ->
      get_reports db user query
      = get_reports db user (delete "municipality_id" query))
  /\ (forall data message,
        json (get_reports db user query) = formatSuccess data message ->
        Forall (fun v => Report.municipality_id (ReportView.row v)
                         = User.municipality_id user)
               (reports data)).
Proof.
  intros _. split; [|split].
  - intros Ht Hne. unfold get_reports, JS.or. rewrite Ht.
    by apply strict_ne_true in Hne as ->.
  - intros Hf. unfold get_reports, JS.or.
    rewrite Hf, prop_delete, !prop_delete_ne by done. done.
  - intros data message. unfold get_reports.
    destruct (JS.strict_ne _ _) eqn:Hne; [done|].
    apply strict_ne_false in Hne. rewrite Hne.
    destruct (range _ _ _) as [page|] eqn:Hpage; [|done].
    simpl. intros [= <- _]. simpl.
    apply Forall_forall. intros v [r [-> Hr]]%list_elem_of_fmap. simpl.
    eapply range_elem_of in Hr; [|exact Hpage].
    apply elem_of_order_desc in Hr.
    do 2 apply optional_eq_elem_of in Hr.
    by apply elem_of_eq_filter in Hr as [?%pg_eq_true _].
Qed.

Lemma get_reports_tenant_boundary_witness :
  get_reports Sample.db0 Sample.officialC {["municipality_id" := JS.Str "m2"]}
  = respond 403
      (formatError "Access denied to reports from other municipalities").
Proof.
  apply (get_reports_tenant_boundary
           Sample.db0 Sample.officialC {["municipality_id" := JS.Str "m2"]}).
  - reflexivity.
  - reflexivity.
  - vm_compute. discriminate.
Defined.

(** C1 as stated fails: an empty [municipality_id] parameter is supplied
    and differs from the official's municipality, yet the request is not
    refused. *)
Lemma get_reports_empty_target_not_forbidden :
  ~ (forall db user query,
       User.role user = JS.Str "official" ->
       prop query "municipality_id" <> JS.Undefined ->
       prop query "municipality_id" <> User.municipality_id user ->
       status (get_reports db user query) = 403).
Proof.
  intros H.
  specialize (H Sample.db0 Sample.officialC
                {["municipality_id" := JS.Str ""]} eq_refl).
  assert (H' : status (get_reports Sample.db0 Sample.officialC
                         {["municipality_id" := JS.Str ""]}) = 403)
    by (apply H; vm_compute; discriminate).
  vm_compute in H'. discriminate H'.
Qed.

(** ** The upvote table *)

Section Upvotes.

Variables report_id user_id : jsval.
Hypothesis report_id_value : JS.nullish report_id = false.
Hypothesis user_id_value : JS.nullish user_id = false.

(** The two chained [.eq] filters select the rows of the pair. *)
Lemma upvote_lookup_filter vs :
  eq_filter Upvote.user_id user_id (eq_filter Upvote.report_id report_id vs)
  = filter (same_upvote report_id user_id) vs.
Proof using report_id_value user_id_value.
  unfold eq_filter. rewrite list_filter_filter. apply list_filter_iff.
  intros v. unfold same_upvote. rewrite !pg_eq_iff by done. tauto.
Qed.

Lemma same_upvote_pair v :
  same_upvote report_id user_id v <-> upvote_pair v = (report_id, user_id).
Proof.
  unfold same_upvote, upvote_pair. split; [by intros [-> ->]|by intros [= -> ->]].
Qed.

Lemma filter_same_upvote_nil vs :
  (report_id, user_id) ∉ upvote_pair <$> vs ->
  filter (same_upvote report_id user_id) vs = [].
Proof.
  intros Hno. induction vs as [|v vs IH]; [done|].
  rewrite fmap_cons, not_elem_of_cons in Hno. destruct Hno as [Hv Hvs].
  rewrite filter_cons_False; [by apply IH|].
  intros H%same_upvote_pair. by rewrite H in Hv.
Qed.

Lemma filter_same_upvote_le_1 vs :
  NoDup (upvote_pair <$> vs) ->
  (length (filter (same_upvote report_id user_id) vs) <= 1)%nat.
Proof.
  induction vs as [|v vs IH]; intros Hnd; [simpl; lia|].
  rewrite fmap_cons in Hnd. apply NoDup_cons in Hnd as [Hv Hnd].
  destruct (decide (same_upvote report_id user_id v)) as [Hs|Hs].
  - rewrite filter_cons_True by done.
    rewrite filter_same_upvote_nil; [simpl; lia|].
    apply same_upvote_pair in Hs. by rewrite <- Hs.
  - rewrite filter_cons_False by done. by apply IH.
Qed.

Lemma has_upvote_filter db :
  has_upvote db report_id user_id <->
  filter (same_upvote report_id user_id) (Db.report_upvotes db) <> [].
Proof.
  unfold has_upvote. rewrite Exists_exists. split.
  - intros (v & Hv & Hs) Hnil.
    assert (Hf : v ∈ filter (same_upvote report_id user_id) (Db.report_upvotes db))
      by (by apply list_elem_of_filter).
    rewrite Hnil in Hf. by apply elem_of_nil in Hf.
  - intros Hne.
    destruct (filter _ _) as [|v l] eqn:Hf; [done|].
    assert (Hv : v ∈ filter (same_upvote report_id user_id) (Db.report_upvotes db))
      by (rewrite Hf; left).
    apply list_elem_of_filter in Hv as [? ?]. eauto.
Qed.

(** The lookup of the existing upvote, under the uniqueness constraint. *)
Lemma upvote_lookup_Some db :
  unique_upvotes db -> has_upvote db report_id user_id ->
  exists v,
    single (eq_filter Upvote.user_id user_id
              (eq_filter Upvote.report_id report_id (Db.report_upvotes db)))
    = Some v.
Proof using report_id_value user_id_value.
  intros Hu Hh. rewrite upvote_lookup_filter.
  apply has_upvote_filter in Hh.
  pose proof (filter_same_upvote_le_1 _ Hu) as Hle.
  destruct (filter _ _) as [|v [|w l]]; [done|by exists v|simpl in Hle; lia].
Qed.

Lemma upvote_lookup_None db :
  ~ has_upvote db report_id user_id ->
  single (eq_filter Upvote.user_id user_id
            (eq_filter Upvote.report_id report_id (Db.report_upvotes db)))
  = None.
Proof using report_id_value user_id_value.
  intros Hh. rewrite upvote_lookup_filter.
  destruct (filter _ _) eqn:Hf; [done|].
  exfalso. apply Hh, has_upvote_filter. by rewrite Hf.
Qed.

Lemma delete_upvotes_rows db :
  Db.report_upvotes (delete_upvotes db report_id user_id)
  = filter (fun v => ~ same_upvote report_id user_id v) (Db.report_upvotes db).
Proof using report_id_value user_id_value.
  unfold delete_upvotes. simpl. apply list_filter_iff.
  intros v. unfold same_upvote. rewrite !pg_eq_iff by done. tauto.
Qed.

Lemma delete_upvotes_gone db :
  ~ has_upvote (delete_upvotes db report_id user_id) report_id user_id.
Proof using report_id_value user_id_value.
  unfold has_upvote. rewrite delete_upvotes_rows, Exists_exists.
  intros (v & Hv & Hs). by apply list_elem_of_filter in Hv as [? _].
Qed.

Lemma delete_upvotes_unique db :
  unique_upvotes db -> unique_upvotes (delete_upvotes db report_id user_id).
Proof using report_id_value user_id_value.
  unfold unique_upvotes. rewrite delete_upvotes_rows. intros Hu.
  eapply sublist_NoDup; [exact Hu|]. apply fmap_sublist, sublist_filter.
Qed.

Lemma insert_upvote_absent db :
  ~ has_upvote db report_id user_id ->
  exists db',
    insert_upvote db report_id user_id = Some db'
    /\ Db.reports db' = Db.reports db
    /\ (exists v, same_upvote report_id user_id v
                  /\ Db.report_upvotes db' = Db.report_upvotes db ++ [v])
    /\ has_upvote db' report_id user_id
    /\ (unique_upvotes db -> unique_upvotes db').
Proof.
  intros Hh. unfold insert_upvote.
  rewrite bool_decide_eq_false_2 by done.
  eexists. split; [done|]. split; [done|]. split; [|split].
  - eexists. split; [|done]. done.
  - unfold has_upvote. simpl. apply Exists_app. right. by left.
  - unfold unique_upvotes. simpl. rewrite fmap_app. intros Hu.
    apply NoDup_app. split; [done|]. split; [|apply NoDup_singleton].
    intros p Hp Hnew. simpl in Hnew.
    apply list_elem_of_singleton in Hnew. subst p.
    apply Hh, Exists_exists.
    apply list_elem_of_fmap in Hp as (v & Hv & Hin).
    exists v. split; [done|]. by apply same_upvote_pair.
Qed.

End Upvotes.

(** ** The upvote toggle *)

Lemma post_upvote_reports db user reportId :
  Db.reports (post_upvote db user reportId).1 = Db.reports db.
Proof.
  unfold post_upvote.
  destruct (single (eq_filter Report.id _ _)); [|done].
  destruct (JS.strict_eq _ _); [done|].
  destruct (single (eq_filter Upvote.user_id _ _)); [done|].
  unfold insert_upvote. by destruct (bool_decide _).
Qed.

(** The two branches of the toggle, once the report is found and is not
    the caller's own. *)
Lemma post_upvote_toggle db user reportId r :
  JS.nullish (User.id user) = false ->
  unique_report_ids db -> unique_upvotes db ->
  r ∈ Db.reports db -> Report.id r = JS.Str reportId ->
  Report.created_by r <> User.id user ->
  (has_upvote db (JS.Str reportId) (User.id user) ->
   post_upvote db user reportId
   = (delete_upvotes db (JS.Str reportId) (User.id user),
      respond 200 (formatSuccess false (Some "Upvote removed"))))
  /\ (~ has_upvote db (JS.Str reportId) (User.id user) ->
      exists db',
        insert_upvote db (JS.Str reportId) (User.id user) = Some db'
        /\ post_upvote db user reportId
           = (db', respond 200 (formatSuccess true (Some "Report upvoted")))).
Proof.
  intros Hid Hrs Hvs Hr Hrid Hother. unfold post_upvote.
  rewrite (eq_filter_key Report.id _ _ r) by done. simpl.
  apply strict_eq_false in Hother. rewrite Hother. split.
  - intros Hh.
    destruct (upvote_lookup_Some (JS.Str reportId) (User.id user)
                eq_refl Hid db Hvs Hh) as [v ->].
    done.
  - intros Hh.
    rewrite (upvote_lookup_None (JS.Str reportId) (User.id user) eq_refl Hid db Hh).
    destruct (insert_upvote_absent _ _ db Hh) as (db' & -> & _). by exists db'.
Qed.

(** C3.  The upvote toggle of a citizen checks its preconditions in
    order: a report that does not exist gives 404 "Report not found";
    otherwise the caller's own report gives 400 "Cannot upvote your own
    report" and the store is left as it was; otherwise an existing
    upvote row of (report, caller) is deleted, nothing else, with
    [upvoted: false], and when there is none exactly one row for the pair
    is inserted with [upvoted: true]. *)
Theorem post_upvote_preconditions db user reportId :
  User.role user = JS.Str "citizen" ->
  JS.nullish (User.id user) = false ->
  unique_report_ids db -> unique_upvotes db ->
  ((forall r, r ∈ Db.reports db -> Report.id r <> JS.Str reportId) ->
   post_upvote db user reportId
   = (db, respond 404 (formatError "Report not found")))
  /\
  (forall r, r ∈ Db.reports db -> Report.id r = JS.Str reportId ->
     (Report.created_by r = User.id user ->
      post_upvote db user reportId
      = (db, respond 400 (formatError "Cannot upvote your own report")))
     /\
     (Report.created_by r <> User.id user ->
      (has_upvote db (JS.Str reportId) (User.id user) ->
       (post_upvote db user reportId).2
       = respond 200 (formatSuccess false (Some "Upvote removed"))
       /\ Db.report_upvotes (post_upvote db user reportId).1
          = filter (fun v => ~ same_upvote (JS.Str reportId) (User.id user) v)
                   (Db.report_upvotes db)
       /\ ~ has_upvote (post_upvote db user reportId).1
                       (JS.Str reportId) (User.id user))
      /\
      (~ has_upvote db (JS.Str reportId) (User.id user) ->
       (post_upvote db user reportId).2
       = respond 200 (formatSuccess true (Some "Report upvoted"))
       /\ (exists v, same_upvote (JS.Str reportId) (User.id user) v
                     /\ Db.report_upvotes (post_upvote db user reportId).1
                        = Db.report_upvotes db ++ [v])
       /\ has_upvote (post_upvote db user reportId).1
                     (JS.Str reportId) (User.id user)))).
Proof.
  intros _ Hid Hrs Hvs. split.
  - intros Hno. unfold post_upvote. by rewrite eq_filter_nil.
  - intros r Hr Hrid. split.
    + intros Hown. unfold post_upvote.
      rewrite (eq_filter_key Report.id _ _ r) by done. simpl.
      apply strict_eq_true in Hown. by rewrite Hown.
    + intros Hother.
      destruct (post_upvote_toggle db user reportId r) as [Hdel Hins]; try done.
      split; intros Hh.
      * rewrite Hdel by done. simpl. split; [done|]. split.
        -- by apply (delete_upvotes_rows (JS.Str reportId)).
        -- by apply (delete_upvotes_gone (JS.Str reportId)).
      * destruct (Hins Hh) as (db' & Hi & ->). simpl.
        destruct (insert_upvote_absent _ _ db Hh) as (db'' & Hi' & _ & ? & ? & _).
        rewrite Hi in Hi'. injection Hi' as <-. done.
Qed.

Lemma sample_unique_upvotes : unique_upvotes Sample.db1.
Proof. apply (bool_decide_unpack _). vm_compute. exact I. Defined.

Lemma sample_unique_report_ids_1 : unique_report_ids Sample.db1.
Proof. apply (bool_decide_unpack _). vm_compute. exact I. Defined.

Lemma post_upvote_preconditions_witness :
  post_upvote Sample.db1 Sample.citizenA "x"
  = (Sample.db1, respond 400 (formatError "Cannot upvote your own report"))
  /\ (post_upvote Sample.db1 Sample.citizenD "x").2
     = respond 200 (formatSuccess false (Some "Upvote removed")).
Proof.
  split.
  - destruct (post_upvote_preconditions Sample.db1 Sample.citizenA "x")
      as [_ H]; [done|done|apply sample_unique_report_ids_1
                |apply sample_unique_upvotes|].
    apply (H Sample.X); [apply list_elem_of_here|done|done].
  - destruct (post_upvote_preconditions Sample.db1 Sample.citizenD "x")
      as [_ H]; [done|done|apply sample_unique_report_ids_1
                |apply sample_unique_upvotes|].
    destruct (H Sample.X) as [_ H']; [apply list_elem_of_here|done|].
    destruct H' as [H' _]; [discriminate|].
    apply H'. apply Exists_cons_hd. done.
Defined.

(** One toggle by an eligible citizen flips the presence of the row and
    keeps the table within its uniqueness constraint. *)
Lemma post_upvote_flips db user reportId r :
  JS.nullish (User.id user) = false ->
  unique_report_ids db -> unique_upvotes db ->
  r ∈ Db.reports db -> Report.id r = JS.Str reportId ->
  Report.created_by r <> User.id user ->
  (has_upvote (post_upvote db user reportId).1 (JS.Str reportId) (User.id user)
   <-> ~ has_upvote db (JS.Str reportId) (User.id user))
  /\ unique_upvotes (post_upvote db user reportId).1.
Proof.
  intros Hid Hrs Hvs Hr Hrid Hother.
  destruct (post_upvote_toggle db user reportId r) as [Hdel Hins]; try done.
  destruct (decide (has_upvote db (JS.Str reportId) (User.id user))) as [Hh|Hh].
  - rewrite Hdel by done. simpl. split.
    + split; [|done]. intros Hgone. exfalso. revert Hgone.
      by apply (delete_upvotes_gone (JS.Str reportId)).
    + by apply (delete_upvotes_unique (JS.Str reportId)).
  - destruct (Hins Hh) as (db' & Hi & ->). simpl.
    destruct (insert_upvote_absent _ _ db Hh) as (db'' & Hi' & _ & _ & ? & Hu).
    rewrite Hi in Hi'. injection Hi' as <-. split; [tauto|by apply Hu].
Qed.

(** C4.  The toggle is an involution on the presence of the row: for an
    existing report and a citizen who is not its author, from any state
    of the upvote table, one toggle flips whether the row of (report,
    citizen) exists and a second one restores it; and before, between and
    after the two toggles every (report, user) pair has at most one
    row. *)
Theorem post_upvote_involutive db user reportId r :
  User.role user = JS.Str "citizen" ->
  JS.nullish (User.id user) = false ->
  unique_report_ids db -> unique_upvotes db ->
  r ∈ Db.reports db -> Report.id r = JS.Str reportId ->
  Report.created_by r <> User.id user ->
  let once := (post_upvote db user reportId).1 in
  let twice := (post_upvote once user reportId).1 in
  (has_upvote once (JS.Str reportId) (User.id user)
   <-> ~ has_upvote db (JS.Str reportId) (User.id user))
  /\ (has_upvote twice (JS.Str reportId) (User.id user)
      <-> has_upvote db (JS.Str reportId) (User.id user))
  /\ (forall report_id user_id,
        (upvote_count db report_id user_id <= 1)%nat
        /\ (upvote_count once report_id user_id <= 1)%nat
        /\ (upvote_count twice report_id user_id <= 1)%nat).
Proof.
  intros _ Hid Hrs Hvs Hr Hrid Hother once twice.
  destruct (post_upvote_flips db user reportId r) as [Hflip1 Hu1]; try done.
  destruct (post_upvote_flips once user reportId r) as [Hflip2 Hu2]; try done.
  { unfold unique_report_ids, once. by rewrite post_upvote_reports. }
  { unfold once. by rewrite post_upvote_reports. }
  split; [done|]. split.
  - subst twice once.
    destruct (decide (has_upvote db (JS.Str reportId) (User.id user))); tauto.
  - intros report_id user_id. unfold upvote_count.
    split; [|split]; by apply filter_same_upvote_le_1.
Qed.

Lemma post_upvote_involutive_witness :
  let once := (post_upvote Sample.db0 Sample.citizenD "x").1 in
  let twice := (post_upvote once Sample.citizenD "x").1 in
  (has_upvote once (JS.Str "x") (JS.Str "d") <-> ~ has_upvote Sample.db0 (JS.Str "x") (JS.Str "d"))
  /\ (has_upvote twice (JS.Str "x") (JS.Str "d") <-> has_upvote Sample.db0 (JS.Str "x") (JS.Str "d"))
  /\ (forall report_id user_id,
        (upvote_count Sample.db0 report_id user_id <= 1)%nat
        /\ (upvote_count once report_id user_id <= 1)%nat
        /\ (upvote_count twice report_id user_id <= 1)%nat).
Proof.
  apply (post_upvote_involutive Sample.db0 Sample.citizenD "x" Sample.X).
  - reflexivity.
  - reflexivity.
  - apply sample_unique_report_ids.
  - apply NoDup_nil_2.
  - apply list_elem_of_here.
  - reflexivity.
  - discriminate.
Defined.

(** ** Report creation *)

Lemma cell_insert (o : jsobj) k v old :
  cell (<[k := v]> o) k old = JS.default old v.
Proof. unfold cell. rewrite lookup_insert_eq. by destruct v. Qed.

Lemma cell_insert_ne (o : jsobj) k k' v old :
  k <> k' -> cell (<[k := v]> o) k' old = cell o k' old.
Proof. intros. unfold cell. by rewrite lookup_insert_ne. Qed.

Lemma cell_empty k old : cell ∅ k old = old.
Proof. unfold cell. by rewrite lookup_empty. Qed.

Lemma default_value d v : v <> JS.Undefined -> JS.default d v = v.
Proof. by destruct v. Qed.

Ltac column := apply (bool_decide_unpack _); vm_compute; exact I.

(** The row the store builds from the object of [post_report]. *)
Lemma assign_new_report db title description category lat lng address
      photo_url municipalityId userId :
  assign (<["title" := title]>
          (<["description" := description]>
          (<["category" := category]>
          (<["lat" := lat]>
          (<["lng" := lng]>
          (<["address" := address]>
          (<["photo_url" := photo_url]>
          (<["municipality_id" := municipalityId]>
          (<["created_by" := userId]> ∅)))))))))
         (default_report db)
  = Some {| Report.id := JS.Str (JS.Z_to_string (Db.next_id db));
            Report.title := JS.default JS.Null title;
            Report.description := JS.default JS.Null description;
            Report.category := JS.default JS.Null category;
            Report.lat := JS.default JS.Null lat;
            Report.lng := JS.default JS.Null lng;
            Report.address := JS.default JS.Null address;
            Report.photo_url := JS.default JS.Null photo_url;
            Report.municipality_id := JS.default JS.Null municipalityId;
            Report.created_by := JS.default JS.Null userId;
            Report.status := JS.Str "open";
            Report.assigned_official := JS.Null;
            Report.created_at := Db.clock db |}.
Proof.
  set (obj := <["title" := title]> _).
  assert (Hcols : map_Forall (fun k _ => k ∈ report_columns) obj).
  { repeat (apply map_Forall_insert_2; [column|]). apply map_Forall_empty. }
  assert (Hid : cell obj "id" = fun old => old).
  { unfold cell, obj. by rewrite !lookup_insert_ne, lookup_empty by done. }
  assert (Hstatus : cell obj "status" = fun old => old).
  { unfold cell, obj. by rewrite !lookup_insert_ne, lookup_empty by done. }
  assert (Hassignee : cell obj "assigned_official" = fun old => old).
  { unfold cell, obj. by rewrite !lookup_insert_ne, lookup_empty by done. }
  assert (Hts : timestamp_cell obj (Db.clock db) = Some (Db.clock db)).
  { unfold timestamp_cell, obj. by rewrite !lookup_insert_ne, lookup_empty by done. }
  assert (Hcell : forall k v, obj !! k = Some v -> cell obj k = fun old => JS.default old v).
  { intros k v Hk. unfold cell. rewrite Hk. by destruct v. }
  unfold assign. rewrite bool_decide_eq_true_2 by done.
  cbn [default_report Report.created_at Report.id Report.title
       Report.description Report.category Report.lat Report.lng Report.address
       Report.photo_url Report.municipality_id Report.created_by Report.status
       Report.assigned_official].
  rewrite Hts, Hid, Hstatus, Hassignee.
  rewrite (Hcell "title" title), (Hcell "description" description),
    (Hcell "category" category), (Hcell "lat" lat), (Hcell "lng" lng),
    (Hcell "address" address), (Hcell "photo_url" photo_url),
    (Hcell "municipality_id" municipalityId), (Hcell "created_by" userId);
    try (unfold obj; by rewrite ?lookup_insert_ne, lookup_insert_eq by done).
  done.
Qed.

(** C5.  Creating a report as a citizen.  The municipality of the new
    report is the caller's own when the caller has one, and otherwise
    the one the geocoder gives for (lat, lng); when neither gives a
    municipality the answer is 400 "Could not determine municipality for
    this location" and the store is left as it was.  Otherwise the store
    is asked for one row with [created_by] the caller's id, the resolved
    [municipality_id], the default open status and no assignee: when it
    refuses the row nothing is written, and when it accepts the answer is
    201 and the table has grown by exactly that row, the upvote table
    being untouched. *)
Theorem post_report_resolution geocode check db user body :
  User.role user = JS.Str "citizen" ->
  JS.nullish (User.id user) = false ->
  forall m,
    (JS.truthy (User.municipality_id user) = true
     /\ m = User.municipality_id user)
    \/ (JS.truthy (User.municipality_id user) = false
        /\ geocode (prop body "lat") (prop body "lng") = Some m) ->
    (JS.truthy m = false ->
     post_report geocode check db user body
     = (db, respond 400
              (formatError "Could not determine municipality for this location")))
    /\
    (JS.truthy m = true ->
     exists r,
       Report.created_by r = User.id user
       /\ Report.municipality_id r = m
       /\ Report.status r = JS.Str "open"
       /\ Report.assigned_official r = JS.Null
       /\ (check db r = false ->
           post_report geocode check db user body
           = (db, respond 400 (formatError "Failed to create report")))
       /\ (check db r = true ->
           exists db',
             post_report geocode check db user body
             = (db', respond 201
                       (formatSuccess (select_with_author db' r)
                                      (Some "Report created successfully")))
             /\ Db.reports db' = Db.reports db ++ [r]
             /\ Db.report_upvotes db' = Db.report_upvotes db)).
Proof.
  intros _ Hid m Hm.
  assert (Hres : (if negb (JS.truthy (User.municipality_id user))
                  then geocode (prop body "lat") (prop body "lng")
                  else Some (User.municipality_id user)) = Some m).
  { destruct Hm as [[-> ->]|[-> ->]]; done. }
  unfold post_report. rewrite Hres. split.
  - by intros ->.
  - intros Hm'. rewrite Hm'. cbn [negb].
    unfold insert_report. rewrite assign_new_report. simpl.
    eexists. split; [|split; [|split; [|split; [|split]]]]; simpl.
    5: { intros ->. done. }
    5: { intros ->. eexists. split; [done|]. done. }
    + apply default_value. by destruct (User.id user).
    + apply default_value. by destruct m.
    + done.
    + done.
Qed.

Lemma post_report_resolution_witness :
  exists r,
    Report.created_by r = JS.Str "n"
    /\ Report.municipality_id r = JS.Str "m1"
    /\ Report.status r = JS.Str "open"
    /\ Report.assigned_official r = JS.Null
    /\ Db.reports
         (post_report Sample.geocode Sample.accept Sample.db0 Sample.citizenN
                      Sample.new_report).1
       = Db.reports Sample.db0 ++ [r].
Proof.
  destruct (post_report_resolution Sample.geocode Sample.accept Sample.db0
              Sample.citizenN Sample.new_report eq_refl eq_refl (JS.Str "m1"))
    as [_ H].
  - right. split; vm_compute; reflexivity.
  - destruct (H eq_refl) as (r & H1 & H2 & H3 & H4 & _ & H5).
    destruct (H5 eq_refl) as (db' & Hpost & Hrows & _).
    exists r. rewrite Hpost.
    exact (conj H1 (conj H2 (conj H3 (conj H4 Hrows)))).
Defined.

(** ** Report update: the assignee check *)

Lemma put_report_found check db currentUser id updates r :
  unique_report_ids db ->
  r ∈ Db.reports db -> Report.id r = JS.Str id ->
  Report.municipality_id r = User.municipality_id currentUser ->
  put_report check db currentUser id updates
  = if JS.truthy (prop updates "assigned_official")
    then match find_official db currentUser (prop updates "assigned_official") with
         | None => (db, respond 400 (formatError "Invalid official assignment"))
         | Some _ => apply_updates check db id updates
         end
    else apply_updates check db id updates.
Proof.
  intros Hids Hr Hid Hmun. unfold put_report.
  rewrite (eq_filter_key Report.id _ _ r) by done. cbn [single].
  apply strict_ne_false in Hmun. by rewrite Hmun.
Qed.

Lemma find_official_elem db currentUser assignee official :
  find_official db currentUser assignee = Some official ->
  official ∈ Db.users db
  /\ User.id official = assignee
  /\ User.role official = JS.Str "official"
  /\ User.municipality_id official = User.municipality_id currentUser.
Proof.
  unfold find_official. intros H%single_Some.
  assert (Ho : official ∈ eq_filter User.municipality_id
                 (User.municipality_id currentUser)
                 (eq_filter User.role (JS.Str "official")
                    (eq_filter User.id assignee (Db.users db))))
    by (rewrite H; left).
  apply elem_of_eq_filter in Ho as [Hm%pg_eq_true Ho].
  apply elem_of_eq_filter in Ho as [Hrole%pg_eq_true Ho].
  apply elem_of_eq_filter in Ho as [Hi%pg_eq_true Ho]. done.
Qed.

Lemma find_official_Some db currentUser assignee official :
  unique_user_ids db ->
  JS.nullish assignee = false ->
  JS.nullish (User.municipality_id currentUser) = false ->
  official ∈ Db.users db ->
  User.id official = assignee ->
  User.role official = JS.Str "official" ->
  User.municipality_id official = User.municipality_id currentUser ->
  find_official db currentUser assignee = Some official.
Proof.
  intros Hids Ha Hm Hin Hid Hrole Hmun. unfold find_official.
  rewrite (eq_filter_key User.id _ _ official) by done.
  unfold eq_filter.
  rewrite filter_cons_True by (by apply pg_eq_iff).
  rewrite filter_nil.
  rewrite filter_cons_True by (by apply pg_eq_iff).
  done.
Qed.

(** Two rows with the same primary key are one row. *)
Lemma key_unique {A} (key : A -> jsval) rows x y :
  NoDup (key <$> rows) -> JS.nullish (key x) = false ->
  x ∈ rows -> y ∈ rows -> key x = key y -> x = y.
Proof.
  intros Hnd Hv Hx Hy Hk.
  pose proof (eq_filter_key key (key x) rows x Hnd Hx eq_refl Hv) as H1.
  pose proof (eq_filter_key key (key x) rows y Hnd Hy (eq_sym Hk) Hv) as H2.
  congruence.
Qed.

(** What the last step writes, when the store accepts the row. *)
Lemma apply_updates_accepted check db id updates r r' :
  unique_report_ids db ->
  r ∈ Db.reports db -> Report.id r = JS.Str id ->
  assign updates r = Some r' -> check db r' = true ->
  let db' :=
    with_reports db
      (map (fun x => if pg_eq (Report.id x) (JS.Str id) then r' else x)
           (Db.reports db)) in
  apply_updates check db id updates
  = (db', respond 200
            (formatSuccess (select_full db' r')
                           (Some "Report updated successfully"))).
Proof.
  intros Hids Hr Hid Ha Hc db'. unfold apply_updates, update_report.
  rewrite (eq_filter_key Report.id _ _ r) by done. cbn [single mbind option_bind].
  rewrite Ha. cbn [mbind option_bind]. by rewrite Hc.
Qed.

(** C6, as what the handler does.  For an official updating a report of
    their own municipality with a truthy [assigned_official]: unless a
    user with that id is an official of the acting official's
    municipality the answer is 400 "Invalid official assignment" and the
    store is left as it was; in particular an assignee whose
    municipality is not the report's is refused; and an assignee who is
    such an official passes the check, the update being applied. *)
Theorem put_report_assignee_checked check db currentUser id updates r :
  User.role currentUser = JS.Str "official" ->
  unique_report_ids db ->
  r ∈ Db.reports db -> Report.id r = JS.Str id ->
  Report.municipality_id r = User.municipality_id currentUser ->
  JS.truthy (prop updates "assigned_official") = true ->
  ((~ exists u, u ∈ Db.users db
                /\ User.id u = prop updates "assigned_official"
                /\ User.role u = JS.Str "official"
                /\ User.municipality_id u = User.municipality_id currentUser) ->
   put_report check db currentUser id updates
   = (db, respond 400 (formatError "Invalid official assignment")))
  /\
  (unique_user_ids db ->
   forall u, u ∈ Db.users db ->
     User.id u = prop updates "assigned_official" ->
     User.municipality_id u <> Report.municipality_id r ->
     put_report check db currentUser id updates
     = (db, respond 400 (formatError "Invalid official assignment")))
  /\
  (unique_user_ids db ->
   JS.nullish (User.municipality_id currentUser) = false ->
   (exists u, u ∈ Db.users db
              /\ User.id u = prop updates "assigned_official"
              /\ User.role u = JS.Str "official"
              /\ User.municipality_id u = User.municipality_id currentUser) ->
   put_report check db currentUser id updates = apply_updates check db id updates).
Proof.
  intros _ Hids Hr Hid Hmun Ht.
  rewrite (put_report_found check db currentUser id updates r) by done.
  rewrite Ht.
  assert (Hnone :
    (~ exists u, u ∈ Db.users db
                 /\ User.id u = prop updates "assigned_official"
                 /\ User.role u = JS.Str "official"
                 /\ User.municipality_id u = User.municipality_id currentUser) ->
    find_official db currentUser (prop updates "assigned_official") = None).
  { intros Hno.
    destruct (find_official _ _ _) as [o|] eqn:Ho; [|done].
    exfalso. apply Hno. exists o. by apply find_official_elem in Ho. }
  split; [|split].
  - intros Hno. by rewrite Hnone.
  - intros Hus u Hu Huid Hout. rewrite Hnone; [done|].
    intros (u' & Hu' & Hid' & _ & Hmun').
    assert (u' = u) as ->.
    { apply (key_unique User.id (Db.users db)); try done.
      - rewrite Hid'. by apply truthy_not_nullish.
      - congruence. }
    congruence.
  - intros Hus Hm (u & Hu & Huid & Hrole & Humun).
    rewrite (find_official_Some db currentUser _ u); try done.
    by apply truthy_not_nullish.
Qed.

Lemma sample_unique_user_ids : unique_user_ids Sample.db0.
Proof. apply (bool_decide_unpack _). vm_compute. exact I. Defined.

Lemma put_report_assignee_checked_witness :
  put_report Sample.accept Sample.db0 Sample.officialC "x"
             {["assigned_official" := JS.Str "e"]}
  = (Sample.db0, respond 400 (formatError "Invalid official assignment")).
Proof.
  destruct (put_report_assignee_checked Sample.accept Sample.db0 Sample.officialC
              "x" {["assigned_official" := JS.Str "e"]} Sample.X)
    as (_ & H & _).
  - reflexivity.
  - apply sample_unique_report_ids.
  - apply list_elem_of_here.
  - reflexivity.
  - reflexivity.
  - vm_compute. reflexivity.
  - apply (H sample_unique_user_ids Sample.officialE).
    + do 5 apply list_elem_of_further. apply list_elem_of_here.
    + vm_compute. reflexivity.
    + discriminate.
Defined.

(** C6 as stated fails: a body that carries [assigned_official: null]
    includes the field, null is the id of no user, and yet the update is
    applied. *)
Lemma put_report_null_assignee_applied :
  ~ (forall check db currentUser id updates r v,
       User.role currentUser = JS.Str "official" ->
       unique_report_ids db -> unique_user_ids db ->
       r ∈ Db.reports db -> Report.id r = JS.Str id ->
       Report.municipality_id r = User.municipality_id currentUser ->
       updates !! "assigned_official" = Some v ->
       (~ exists u, u ∈ Db.users db
                    /\ User.id u = v
                    /\ User.role u = JS.Str "official"
                    /\ User.municipality_id u = User.municipality_id currentUser) ->
       put_report check db currentUser id updates
       = (db, respond 400 (formatError "Invalid official assignment"))).
Proof.
  intros H.
  specialize (H Sample.accept Sample.db0 Sample.officialC "x"
                (<["assigned_official" := JS.Null]> {["status" := JS.Str "resolved"]})
                Sample.X JS.Null eq_refl
                sample_unique_report_ids sample_unique_user_ids
                (list_elem_of_here _ _) eq_refl eq_refl).
  assert (Hstatus : status (put_report Sample.accept Sample.db0 Sample.officialC "x"
                      (<["assigned_official" := JS.Null]>
                         {["status" := JS.Str "resolved"]})).2 = 400).
  { rewrite H; [done|by vm_compute|].
    intros (u & Hu & Hid & _). vm_compute in Hu.
    repeat (apply elem_of_cons in Hu as [->|Hu]; [discriminate Hid|]).
    by apply elem_of_nil in Hu. }
  vm_compute in Hstatus. discriminate Hstatus.
Qed.

(** C10.  The assignee check runs only for a truthy [assigned_official].
    When the body's [assigned_official] is absent, null or otherwise
    falsy, the update never answers 400 "Invalid official assignment";
    for a report of the official's own municipality the handler goes
    straight to writing the body, so that clearing an assignment with
    [null] is written as soon as the store accepts the row. *)
Theorem put_report_falsy_assignee_unchecked check db currentUser id updates :
  JS.truthy (prop updates "assigned_official") = false ->
  (put_report check db currentUser id updates).2
  <> respond 400 (formatError "Invalid official assignment")
  /\
  (forall r,
     unique_report_ids db ->
     r ∈ Db.reports db -> Report.id r = JS.Str id ->
     Report.municipality_id r = User.municipality_id currentUser ->
     put_report check db currentUser id updates = apply_updates check db id updates
     /\ (forall r',
           assign updates r = Some r' -> check db r' = true ->
           (put_report check db currentUser id updates).2
           = respond 200
               (formatSuccess
                  (select_full (put_report check db currentUser id updates).1 r')
                  (Some "Report updated successfully"))
           /\ r' ∈ Db.reports (put_report check db currentUser id updates).1)).
Proof.
  intros Hf. split.
  - unfold put_report. rewrite Hf.
    destruct (single _) as [report|]; [|done].
    destruct (JS.strict_ne _ _); [done|].
    unfold apply_updates. by destruct (update_report _ _ _ _) as [[? ?]|].
  - intros r Hids Hr Hid Hmun.
    rewrite (put_report_found check db currentUser id updates r) by done.
    rewrite Hf. split; [done|].
    intros r' Ha Hc.
    rewrite (apply_updates_accepted check db id updates r r') by done.
    cbn [fst snd]. split; [done|].
    cbn [with_reports Db.reports].
    apply list_elem_of_fmap. exists r. split; [|done].
    rewrite Hid. unfold pg_eq. by rewrite bool_decide_eq_true_2.
Qed.

Lemma put_report_falsy_assignee_unchecked_witness :
  (put_report Sample.accept Sample.db0 Sample.officialC "x"
              {["assigned_official" := JS.Null]}).2
  <> respond 400 (formatError "Invalid official assignment").
Proof.
  apply (put_report_falsy_assignee_unchecked Sample.accept Sample.db0
           Sample.officialC "x" {["assigned_official" := JS.Null]}).
  vm_compute. reflexivity.
Defined.

(** ** Report update: the frame *)

Lemma reject_immutable_conforming : conforming_validator reject_immutable.
Proof.
  intros body updates H k Hk. unfold reject_immutable in H.
  destruct (bool_decide _) eqn:Hb; [|done]. injection H as <-.
  apply bool_decide_eq_true in Hb. by eapply Forall_forall in Hb.
Qed.

Lemma ignore_immutable_conforming : conforming_validator ignore_immutable.
Proof.
  intros body updates [= <-] k Hk. unfold immutable_columns in *. simpl.
  repeat (apply elem_of_cons in Hk as [->|Hk];
          [by rewrite ?lookup_delete_ne, lookup_delete_eq by done|]).
  by apply elem_of_nil in Hk.
Qed.

(** A write leaves alone every column the object does not name. *)
Lemma assign_frame obj r r' k :
  assign obj r = Some r' -> obj !! k = None ->
  column_value k r' = column_value k r.
Proof.
  unfold assign. destruct (bool_decide _); [|done].
  destruct (timestamp_cell obj (Report.created_at r)) as [ts|] eqn:Hts; [|done].
  cbn [mbind option_bind]. intros [= <-] Hk.
  unfold column_value.
  repeat case_decide; subst;
    cbn [Report.id Report.title Report.description Report.category Report.lat
         Report.lng Report.address Report.photo_url Report.municipality_id
         Report.created_by Report.status Report.assigned_official
         Report.created_at];
    try done; try (unfold cell; by rewrite Hk).
  unfold timestamp_cell in Hts. rewrite Hk in Hts. congruence.
Qed.

Lemma update_report_Some check db id updates db' r' :
  unique_report_ids db ->
  update_report check db (JS.Str id) updates = Some (db', r') ->
  exists r,
    r ∈ Db.reports db /\ Report.id r = JS.Str id
    /\ assign updates r = Some r' /\ check db r' = true
    /\ db' = with_reports db
               (map (fun x => if decide (x = r) then r' else x) (Db.reports db)).
Proof.
  intros Hids. unfold update_report.
  destruct (single _) as [r|] eqn:Hs; [|done]. cbn [mbind option_bind].
  destruct (assign updates r) as [r1|] eqn:Ha; [|done]. cbn [mbind option_bind].
  destruct (check db r1) eqn:Hc; [|done]. intros [= <- <-].
  apply single_eq_filter_elem in Hs as [Hr Hid].
  exists r. do 4 (split; [done|]). f_equal.
  apply map_ext_in. intros x Hx%list_elem_of_In.
  destruct (pg_eq (Report.id x) (JS.Str id)) eqn:Hx'.
  - apply pg_eq_true in Hx'.
    rewrite decide_True; [done|].
    apply (key_unique Report.id (Db.reports db)); try done; [by rewrite Hx'|congruence].
  - rewrite decide_False; [done|]. intros ->.
    rewrite Hid in Hx'. unfold pg_eq in Hx'.
    by rewrite bool_decide_eq_true_2 in Hx'.
Qed.

(** Every success of the handler is a success of its last step. *)
Lemma put_report_200 check db currentUser id updates db' view message :
  put_report check db currentUser id updates
  = (db', respond 200 (formatSuccess view message)) ->
  exists r',
    update_report check db (JS.Str id) updates = Some (db', r')
    /\ view = select_full db' r'.
Proof.
  unfold put_report.
  destruct (single _) as [report|]; [|done].
  destruct (JS.strict_ne _ _); [done|].
  assert (Hlast : apply_updates check db id updates
                  = (db', respond 200 (formatSuccess view message)) ->
                  exists r', update_report check db (JS.Str id) updates = Some (db', r')
                             /\ view = select_full db' r').
  { unfold apply_updates.
    destruct (update_report _ _ _ _) as [[db1 r1]|]; [|done].
    intros [= <- <- _]. by exists r1. }
  destruct (JS.truthy _); [|done].
  by destruct (find_official _ _ _).
Qed.

(** C7.  For every update of a report by an official that succeeds
    through the update route, with a body validation that rejects or
    ignores the immutable columns: the report keeps its [id], its
    [created_by] and its [municipality_id], every column that the
    validated body does not name keeps its cell, and nothing but that
    report changes in the store. *)
Theorem put_report_route_frame validate check db currentUser id body
        db' view message :
  conforming_validator validate ->
  User.role currentUser = JS.Str "official" ->
  unique_report_ids db ->
  put_report_route validate check db currentUser id body
  = Some (db', respond 200 (formatSuccess view message)) ->
  exists r updates,
    validate body = Some updates
    /\ r ∈ Db.reports db /\ Report.id r = JS.Str id
    /\ Report.id (ReportView.row view) = Report.id r
    /\ Report.created_by (ReportView.row view) = Report.created_by r
    /\ Report.municipality_id (ReportView.row view) = Report.municipality_id r
    /\ (forall k, updates !! k = None ->
          column_value k (ReportView.row view) = column_value k r)
    /\ Db.reports db'
       = map (fun x => if decide (x = r) then ReportView.row view else x)
             (Db.reports db)
    /\ Db.users db' = Db.users db
    /\ Db.report_upvotes db' = Db.report_upvotes db.
Proof.
  intros Hval _ Hids. unfold put_report_route.
  destruct (validate body) as [updates|] eqn:Hv; [|done].
  cbn [mbind option_bind]. intros [= Hput].
  apply put_report_200 in Hput as (r' & Hup & ->).
  apply update_report_Some in Hup as (r & Hr & Hid & Ha & _ & ->); [|done].
  exists r, updates. cbn [select_full ReportView.row].
  assert (Hkeep : forall k, k ∈ immutable_columns ->
                    column_value k r' = column_value k r).
  { intros k Hk. eapply assign_frame; [exact Ha|]. by eapply Hval. }
  split; [done|]. split; [done|]. split; [done|].
  split; [apply (Hkeep "id"); column|].
  split; [apply (Hkeep "created_by"); column|].
  split; [apply (Hkeep "municipality_id"); column|].
  split; [intros k Hk; by eapply assign_frame|].
  done.
Qed.

Lemma put_report_route_frame_witness :
  exists r db' view message,
    put_report_route reject_immutable Sample.accept Sample.db0 Sample.officialC "x"
                     {["status" := JS.Str "resolved"]}
    = Some (db', respond 200 (formatSuccess view message))
    /\ r ∈ Db.reports Sample.db0
    /\ Report.created_by (ReportView.row view) = Report.created_by r
    /\ Report.municipality_id (ReportView.row view) = Report.municipality_id r
    /\ Report.status (ReportView.row view) = JS.Str "resolved".
Proof.
  assert (Hrun : exists db' view message,
            put_report_route reject_immutable Sample.accept Sample.db0
                             Sample.officialC "x" {["status" := JS.Str "resolved"]}
            = Some (db', respond 200 (formatSuccess view message))
            /\ Report.status (ReportView.row view) = JS.Str "resolved").
  { vm_compute. eexists _, _, _. split; reflexivity. }
  destruct Hrun as (db' & view & message & Hrun & Hstatus).
  destruct (put_report_route_frame reject_immutable Sample.accept Sample.db0
              Sample.officialC "x" {["status" := JS.Str "resolved"]}
              db' view message reject_immutable_conforming eq_refl
              sample_unique_report_ids Hrun)
    as (r & updates & _ & Hr & _ & _ & Hby & Hmun & _).
  exists r, db', view, message.
  exact (conj Hrun (conj Hr (conj Hby (conj Hmun Hstatus)))).
Defined.

(** The handler itself writes the body as it is: without the validation
    in front of it, a body naming an immutable column overwrites it. *)
Example put_report_writes_body_as_is :
  Report.created_by <$>
    head (Db.reports (put_report Sample.accept Sample.db0 Sample.officialC "x"
                                 {["created_by" := JS.Str "d"]}).1)
  = Some (JS.Str "d").
Proof. vm_compute. reflexivity. Qed.

(** ** The citizen listing *)

Lemma insert_desc_sorted {A} (key : A -> Z) x l :
  StronglySorted (fun a b => key b <= key a) l ->
  StronglySorted (fun a b => key b <= key a) (insert_desc key x l).
Proof.
  induction l as [|y l IH]; intros Hl; simpl.
  - by repeat constructor.
  - apply StronglySorted_cons in Hl as [Hy Hl].
    destruct (key x <? key y) eqn:Hlt.
    + apply Z.ltb_lt in Hlt. apply StronglySorted_cons. split; [|by apply IH].
      apply Forall_forall. intros z [->|Hz]%elem_of_insert_desc; [lia|].
      by eapply Forall_forall in Hy.
    + apply Z.ltb_ge in Hlt. apply StronglySorted_cons. split.
      * apply Forall_cons. split; [done|].
        eapply Forall_impl; [exact Hy|]. simpl. intros z Hz. lia.
      * by apply StronglySorted_cons.
Qed.

Lemma order_desc_sorted {A} (key : A -> Z) l :
  StronglySorted (fun a b => key b <= key a) (order_desc key l).
Proof.
  unfold order_desc. induction l as [|x l IH]; simpl; [constructor|].
  by apply insert_desc_sorted.
Qed.

Lemma range_sorted {A} (R : A -> A -> Prop) from to rows page :
  range from to rows = Some page -> StronglySorted R rows -> StronglySorted R page.
Proof.
  unfold range.
  destruct (JS.ToNumber from) as [f|]; [|done].
  destruct to as [t|]; [|done]. cbn [mbind option_bind].
  destruct (_ && _); [|done]. intros [= <-] Hs.
  rewrite <- (take_drop (Z.to_nat f) rows) in Hs.
  apply StronglySorted_app_1_r in Hs.
  rewrite <- (take_drop (Z.to_nat (t - f + 1)) (drop (Z.to_nat f) rows)) in Hs.
  by apply StronglySorted_app_1_l in Hs.
Qed.

Lemma rows_of_views db rows :
  map ReportView.row (map (select_with_municipality db) rows) = rows.
Proof. induction rows as [|r rows IH]; simpl; [done|]. by rewrite IH. Qed.

(** The parts of the listing that hold for every query: only the
    caller's reports, newest first. *)
Lemma get_reports_mine_own_newest_first db user query data message :
  json (get_reports_mine db user query) = formatSuccess data message ->
  Forall (fun v => Report.created_by (ReportView.row v) = User.id user)
         (reports data)
  /\ newest_first (map ReportView.row (reports data)).
Proof.
  unfold get_reports_mine.
  destruct (range _ _ _) as [page|] eqn:Hpage; [|done].
  simpl. intros [= <- _]. simpl. split.
  - apply Forall_forall. intros v [r [-> Hr]]%list_elem_of_fmap. simpl.
    eapply range_elem_of in Hr; [|exact Hpage].
    apply elem_of_order_desc in Hr.
    do 2 apply optional_eq_elem_of in Hr.
    by apply elem_of_eq_filter in Hr as [?%pg_eq_true _].
  - rewrite rows_of_views. eapply range_sorted; [exact Hpage|].
    apply order_desc_sorted.
Qed.

(** Without [limit] and [offset] the page is the first 50 matches. *)
Lemma get_reports_mine_default_page db user query :
  prop query "limit" = JS.Undefined -> prop query "offset" = JS.Undefined ->
  get_reports_mine db user query
  = respond 200
      (formatSuccess
         (listing
            (map (select_with_municipality db)
               (take 50
                  (order_desc Report.created_at
                     (optional_eq Report.category (prop query "category")
                        (optional_eq Report.status (prop query "status")
                           (eq_filter Report.created_by (User.id user)
                              (Db.reports db))))))))
         None).
Proof.
  intros Hl Ho. unfold get_reports_mine. rewrite Hl, Ho. reflexivity.
Qed.

(** C8 fails on the page size.  [limit] and [offset] arrive as the
    strings of the query; [offset + limit] then concatenates, so with
    [limit=1&offset=1] the upper bound of the range is "11" - 1 = 10 and
    citizen A, who has three reports, is sent two of them on a page
    limited to one. *)
Theorem get_reports_mine_page_exceeds_limit :
  exists data,
    get_reports_mine Sample.db0 Sample.citizenA
      (<["limit" := JS.Str "1"]> {["offset" := JS.Str "1"]})
    = respond 200 (formatSuccess data None)
    /\ map (fun v => Report.id (ReportView.row v)) (reports data)
       = [JS.Str "y"; JS.Str "x"]
    /\ total data = 2.
Proof. eexists. vm_compute. split; [reflexivity|]. split; reflexivity. Qed.

(** ** The users router *)

Lemma users_me_dispatch :
  dispatch users_router GET ["me"] = Some (GetUser, [("id", "me")]).
Proof. reflexivity. Qed.

(** In the reports router the literal route comes first and is reached. *)
Lemma reports_mine_dispatch :
  dispatch reports_router GET ["mine"] = Some (GetReportsMine, []).
Proof. reflexivity. Qed.

(** A request for [/me] is answered by the [/:id] handler, which looks
    for a user whose id is the text "me". *)
Lemma users_me_is_get_user db currentUser :
  users_request db currentUser GET ["me"] = Some (get_user db currentUser "me").
Proof. reflexivity. Qed.

Lemma users_me_not_found db currentUser :
  (forall u, u ∈ Db.users db -> User.id u <> JS.Str "me") ->
  users_request db currentUser GET ["me"]
  = Some (respond 404 (formatError "User not found")).
Proof.
  intros Hno. rewrite users_me_is_get_user. unfold get_user.
  by rewrite eq_filter_nil.
Qed.

(** C9 fails.  Citizen A has a profile, which the [/me] handler would
    return, but [GET /users/me] never reaches that handler: the [/:id]
    route registered before it answers 404 "User not found". *)
Theorem users_me_shadowed :
  users_request Sample.db0 Sample.citizenA GET ["me"]
  = Some (respond 404 (formatError "User not found"))
  /\ get_me Sample.db0 Sample.citizenA
     = respond 200 (formatSuccess (select_user Sample.db0 Sample.citizenA) None).
Proof. split; vm_compute; reflexivity. Qed.

(** * Further properties of the routers *)

(** ** Profiles *)

Lemma canAccessUser_iff currentUser userData :
  canAccessUser currentUser userData = true <->
  User.id currentUser = User.id userData
  \/ (User.role currentUser = JS.Str "official"
      /\ User.municipality_id currentUser = User.municipality_id userData).
Proof.
  unfold canAccessUser.
  rewrite orb_true_iff, andb_true_iff, !strict_eq_true. tauto.
Qed.

(** X1.  Reading a profile by id: when no user has the id the answer is
    404 "User not found"; an existing profile is returned to its owner
    and to an official of the same municipality, and every other caller
    gets 403 "Access denied". *)
Theorem get_user_access db currentUser id :
  unique_user_ids db ->
  ((forall u, u ∈ Db.users db -> User.id u <> JS.Str id) ->
   get_user db currentUser id = respond 404 (formatError "User not found"))
  /\
  (forall u, u ∈ Db.users db -> User.id u = JS.Str id ->
     (User.id currentUser = JS.Str id
      \/ (User.role currentUser = JS.Str "official"
          /\ User.municipality_id currentUser = User.municipality_id u) ->
      get_user db currentUser id
      = respond 200 (formatSuccess (select_user db u) None))
     /\
     (User.id currentUser <> JS.Str id ->
      (User.role currentUser <> JS.Str "official"
       \/ User.municipality_id currentUser <> User.municipality_id u) ->
      get_user db currentUser id = respond 403 (formatError "Access denied"))).
Proof.
  intros Hids. split.
  - intros Hno. unfold get_user. by rewrite eq_filter_nil.
  - intros u Hu Hid. unfold get_user.
    rewrite (eq_filter_key User.id _ _ u) by done. cbn [single].
    split.
    + intros Hok.
      assert (Hc : canAccessUser currentUser u = true).
      { apply canAccessUser_iff. rewrite Hid. tauto. }
      by rewrite Hc.
    + intros Hother Hout.
      assert (Hc : canAccessUser currentUser u = false).
      { apply not_true_is_false. rewrite canAccessUser_iff, Hid. tauto. }
      by rewrite Hc.
Qed.

Lemma get_user_access_witness :
  get_user Sample.db0 Sample.citizenA "a"
  = respond 200 (formatSuccess (select_user Sample.db0 Sample.citizenA) None)
  /\ get_user Sample.db0 Sample.citizenA "d"
     = respond 403 (formatError "Access denied")
  /\ get_user Sample.db0 Sample.officialC "d"
     = respond 200 (formatSuccess (select_user Sample.db0 Sample.citizenD) None).
Proof.
  split; [|split].
  - destruct (get_user_access Sample.db0 Sample.citizenA "a"
                sample_unique_user_ids) as [_ H].
    destruct (H Sample.citizenA) as [H' _];
      [apply list_elem_of_here|reflexivity|].
    apply H'. left. reflexivity.
  - destruct (get_user_access Sample.db0 Sample.citizenA "d"
                sample_unique_user_ids) as [_ H].
    destruct (H Sample.citizenD) as [_ H'];
      [apply list_elem_of_further, list_elem_of_here|reflexivity|].
    apply H'; [discriminate|left; discriminate].
  - destruct (get_user_access Sample.db0 Sample.officialC "d"
                sample_unique_user_ids) as [_ H].
    destruct (H Sample.citizenD) as [H' _];
      [apply list_elem_of_further, list_elem_of_here|reflexivity|].
    apply H'. right. split; reflexivity.
Defined.

(** X2.  The users router answers a request through [get_user] or not
    at all: a GET of one segment, whatever its text, is bound to [:id]
    and served by [get_user], and every other request matches no route.
    The [/me] handler is never run. *)
Theorem users_request_routes db currentUser m path :
  users_request db currentUser m path
  = match m, path with
    | GET, [s] => Some (get_user db currentUser s)
    | _, _ => None
    end.
Proof.
  unfold users_request, users_router, dispatch.
  destruct m, path as [|s [|s' path]];
    cbn -[String.eqb bool_decide];
    repeat case_bool_decide; try done;
    by destruct (String.eqb "me" s).
Qed.

(** X3.  The [/me] handler, run for a caller whose profile row exists,
    returns that row with its municipality and nobody else's; a caller
    without a profile row gets 404 "User not found". *)
Theorem get_me_own_profile db currentUser :
  unique_user_ids db ->
  JS.nullish (User.id currentUser) = false ->
  (forall u, u ∈ Db.users db -> User.id u = User.id currentUser ->
     get_me db currentUser = respond 200 (formatSuccess (select_user db u) None))
  /\ ((forall u, u ∈ Db.users db -> User.id u <> User.id currentUser) ->
      get_me db currentUser = respond 404 (formatError "User not found")).
Proof.
  intros Hids Hid. split.
  - intros u Hu Hu'. unfold get_me.
    by rewrite (eq_filter_key User.id _ _ u).
  - intros Hno. unfold get_me. by rewrite eq_filter_nil.
Qed.

Lemma get_me_own_profile_witness :
  get_me Sample.db0 Sample.officialB
  = respond 200 (formatSuccess (select_user Sample.db0 Sample.officialB) None).
Proof.
  destruct (get_me_own_profile Sample.db0 Sample.officialB
              sample_unique_user_ids eq_refl) as [H _].
  apply (H Sample.officialB); [|reflexivity].
  do 3 apply list_elem_of_further. apply list_elem_of_here.
Defined.

(** ** The routes of the reports router *)


(** ** Listings *)

Lemma rows_of_full_views db rows :
  map ReportView.row (map (select_full db) rows) = rows.
Proof. induction rows as [|r rows IH]; simpl; [done|]. by rewrite IH. Qed.


(** What a successful citizen listing is made of. *)
Lemma get_reports_mine_success db user query data message :
  json (get_reports_mine db user query) = formatSuccess data message ->
  exists page,
    range (JS.default (JS.Num 0) (prop query "offset"))
          (JS.sub (JS.add (JS.default (JS.Num 0) (prop query "offset"))
                          (JS.default (JS.Num 50) (prop query "limit")))
                  (JS.Num 1))
          (order_desc Report.created_at
             (optional_eq Report.category (prop query "category")
                (optional_eq Report.status (prop query "status")
                   (eq_filter Report.created_by (User.id user) (Db.reports db)))))
    = Some page
    /\ data = listing (map (select_with_municipality db) page).
Proof.
  unfold get_reports_mine.
  destruct (range _ _ _) as [page|] eqn:Hpage; [|done].
  cbn [json]. intros [= <- _]. by exists page.
Qed.

(** What a successful official listing is made of. *)
Lemma get_reports_success db user query data message :
  json (get_reports db user query) = formatSuccess data message ->
  exists page,
    range (JS.default (JS.Num 0) (prop query "offset"))
          (JS.sub (JS.add (JS.default (JS.Num 0) (prop query "offset"))
                          (JS.default (JS.Num 50) (prop query "limit")))
                  (JS.Num 1))
          (order_desc Report.created_at
             (optional_eq Report.category (prop query "category")
                (optional_eq Report.status (prop query "status")
                   (eq_filter Report.municipality_id (User.municipality_id user)
                      (Db.reports db)))))
    = Some page
    /\ data = listing (map (select_full db) page).
Proof.
  unfold get_reports.
  destruct (JS.strict_ne _ _) eqn:Hne; [done|].
  apply strict_ne_false in Hne. rewrite Hne.
  destruct (range _ _ _) as [page|] eqn:Hpage; [|done].
  cbn [json]. intros [= <- _]. by exists page.
Qed.

Lemma page_elem_of {A} (column : Report.t -> jsval) v from to status category
      (rows page : list Report.t) (view : Report.t -> A) x :
  range from to
        (order_desc Report.created_at
           (optional_eq Report.category category
              (optional_eq Report.status status (eq_filter column v rows))))
  = Some page ->
  x ∈ page ->
  x ∈ optional_eq Report.category category
        (optional_eq Report.status status (eq_filter column v rows)).
Proof.
  intros Hpage Hx. eapply range_elem_of in Hx; [|exact Hpage].
  by apply elem_of_order_desc in Hx.
Qed.

(** X5.  The official listing is newest first, and in both listings
    [total] is the number of reports on the page that is returned. *)
Theorem listings_order_and_total db user query :
  (forall data message,
     json (get_reports db user query) = formatSuccess data message ->
     newest_first (map ReportView.row (reports data))
     /\ total data = Z.of_nat (length (reports data)))
  /\
  (forall data message,
     json (get_reports_mine db user query) = formatSuccess data message ->
     total data = Z.of_nat (length (reports data))).
Proof.
  split; intros data message H.
  - apply get_reports_success in H as (page & Hpage & ->).
    cbn [listing reports total]. split; [|done].
    rewrite rows_of_full_views. eapply range_sorted; [exact Hpage|].
    apply order_desc_sorted.
  - by apply get_reports_mine_success in H as (page & Hpage & ->).
Qed.

Lemma listings_order_and_total_witness :
  exists data,
    json (get_reports Sample.db0 Sample.officialC ∅) = formatSuccess data None
    /\ newest_first (map ReportView.row (reports data))
    /\ total data = 3.
Proof.
  assert (Hrun : exists data,
            json (get_reports Sample.db0 Sample.officialC ∅)
            = formatSuccess data None /\ total data = 3).
  { vm_compute. eexists. split; reflexivity. }
  destruct Hrun as (data & Hrun & Htotal).
  destruct (listings_order_and_total Sample.db0 Sample.officialC ∅) as [H _].
  destruct (H data None Hrun) as [Hsorted _].
  exists data. exact (conj Hrun (conj Hsorted Htotal)).
Defined.



(** ** Pagination *)





(** ** Listing and reading agree *)

(** X8.  Whatever a listing shows its caller, the caller can read by id:
    an official gets from [get_report] the very view that the official
    listing carries, and a citizen gets the full view of each report of
    their own listing. *)
Theorem listed_reports_are_readable db user query data message v s :
  unique_report_ids db ->
  v ∈ reports data ->
  Report.id (ReportView.row v) = JS.Str s ->
  (User.role user = JS.Str "official" ->
   json (get_reports db user query) = formatSuccess data message ->
   get_report db user s = respond 200 (formatSuccess v None))
  /\
  (User.role user = JS.Str "citizen" ->
   json (get_reports_mine db user query) = formatSuccess data message ->
   get_report db user s
   = respond 200 (formatSuccess (select_full db (ReportView.row v)) None)).
Proof.
  intros Hids Hv Hs. split; intros Hrole H.
  - apply get_reports_success in H as (page & Hpage & ->).
    cbn [listing reports] in Hv.
    apply list_elem_of_fmap in Hv as (r & -> & Hr).
    cbn [select_full ReportView.row] in Hs.
    eapply (page_elem_of _ _ _ _ _ _ _ _ (select_full db)) in Hr; [|exact Hpage].
    do 2 apply optional_eq_elem_of in Hr.
    apply elem_of_eq_filter in Hr as [Hm%pg_eq_true Hr].
    unfold get_report. rewrite (eq_filter_key Report.id _ _ r) by done.
    cbn [single].
    replace (canAccess user r) with true; [done|].
    symmetry. apply canAccess_iff. by right.
  - apply get_reports_mine_success in H as (page & Hpage & ->).
    cbn [listing reports] in Hv.
    apply list_elem_of_fmap in Hv as (r & -> & Hr).
    cbn [select_with_municipality ReportView.row] in *.
    eapply (page_elem_of _ _ _ _ _ _ _ _ (select_full db)) in Hr; [|exact Hpage].
    do 2 apply optional_eq_elem_of in Hr.
    apply elem_of_eq_filter in Hr as [Hm%pg_eq_true Hr].
    unfold get_report. rewrite (eq_filter_key Report.id _ _ r) by done.
    cbn [single].
    replace (canAccess user r) with true; [done|].
    symmetry. apply canAccess_iff. by left.
Qed.

Lemma listed_reports_are_readable_witness :
  get_report Sample.db0 Sample.officialC "y"
  = respond 200 (formatSuccess (select_full Sample.db0 Sample.Y) None).
Proof.
  assert (Hrun : exists data,
            json (get_reports Sample.db0 Sample.officialC ∅)
            = formatSuccess data None
            /\ select_full Sample.db0 Sample.Y ∈ reports data).
  { vm_compute. eexists. split; [reflexivity|].
    apply list_elem_of_further, list_elem_of_here. }
  destruct Hrun as (data & Hrun & Hin).
  destruct (listed_reports_are_readable Sample.db0 Sample.officialC ∅ data None
              (select_full Sample.db0 Sample.Y) "y"
              sample_unique_report_ids Hin eq_refl) as [H _].
  exact (H eq_refl Hrun).
Defined.

(** ** Creation *)

(** Every 201 of [post_report] comes from one accepted row. *)
Lemma post_report_created geocode check db user body db' view message :
  post_report geocode check db user body
  = (db', respond 201 (formatSuccess view message)) ->
  exists m,
    JS.truthy m = true
    /\ check db (created_report db user body m) = true
    /\ db' = tick (with_reports db
                     (Db.reports db ++ [created_report db user body m]))
    /\ view = select_with_author db' (created_report db user body m).
Proof.
  unfold post_report.
  destruct (if negb _ then _ else _) as [m|]; [|done].
  destruct (JS.truthy m) eqn:Hm; [|done]. cbn [negb].
  unfold insert_report. rewrite assign_new_report. cbn [mbind option_bind].
  fold (created_report db user body m).
  destruct (check db (created_report db user body m)) eqn:Hc; [|done].
  intros [= <- <- _]. by exists m.
Qed.

(** X9.  [post_report] reads seven fields of the body and nothing else:
    two bodies that agree on them are answered alike and leave the same
    store, so a body cannot choose the id, the author, the status, the
    assignee or the creation time of the report it creates. *)
Theorem post_report_reads_seven_fields geocode check db user body body' :
  (forall k, k ∈ report_fields -> prop body k = prop body' k) ->
  post_report geocode check db user body
  = post_report geocode check db user body'.
Proof.
  intros H. unfold post_report.
  rewrite (H "title"), (H "description"), (H "category"), (H "lat"),
    (H "lng"), (H "address"), (H "photo_url") by column.
  reflexivity.
Qed.

Lemma post_report_reads_seven_fields_witness :
  post_report Sample.geocode Sample.accept Sample.db0 Sample.citizenN
    (<["status" := JS.Str "resolved"]>
       (<["created_by" := JS.Str "a"]> Sample.new_report))
  = post_report Sample.geocode Sample.accept Sample.db0 Sample.citizenN
      Sample.new_report.
Proof.
  apply post_report_reads_seven_fields.
  intros k Hk. unfold report_fields in Hk.
  repeat (apply elem_of_cons in Hk as [->|Hk]; [vm_compute; reflexivity|]).
  by apply elem_of_nil in Hk.
Defined.

(** X10.  A report that was just created can be read back by its
    author: after a 201, provided the id drawn from the sequence is not
    yet in the table, [get_report] with that id answers the citizen with
    the new row. *)
Theorem post_report_then_get_report geocode check db user body
        db' view message :
  User.role user = JS.Str "citizen" ->
  JS.nullish (User.id user) = false ->
  unique_report_ids db ->
  JS.Str (JS.Z_to_string (Db.next_id db)) ∉ Report.id <$> Db.reports db ->
  post_report geocode check db user body
  = (db', respond 201 (formatSuccess view message)) ->
  get_report db' user (JS.Z_to_string (Db.next_id db))
  = respond 200 (formatSuccess (select_full db' (ReportView.row view)) None)
  /\ Report.created_by (ReportView.row view) = User.id user.
Proof.
  intros Hrole Hid Hids Hfresh H.
  apply post_report_created in H as (m & Hm & _ & -> & ->).
  cbn [select_with_author ReportView.row].
  assert (Hby : Report.created_by (created_report db user body m) = User.id user).
  { cbn [created_report Report.created_by]. apply default_value.
    by destruct (User.id user). }
  split; [|done].
  unfold get_report. cbn [tick with_reports Db.reports].
  rewrite (eq_filter_key Report.id _ _ (created_report db user body m)).
  - cbn [single].
    replace (canAccess user (created_report db user body m)) with true; [done|].
    symmetry. apply canAccess_iff. by left.
  - rewrite fmap_app. apply NoDup_app. split; [done|]. split.
    + intros x Hx Hx'. cbn in Hx'. apply list_elem_of_singleton in Hx'.
      subst x. by apply Hfresh.
    + apply NoDup_singleton.
  - apply elem_of_app. right. apply list_elem_of_here.
  - reflexivity.
  - reflexivity.
Qed.

Lemma post_report_then_get_report_witness :
  exists db' view,
    post_report Sample.geocode Sample.accept Sample.db0 Sample.citizenN
                Sample.new_report
    = (db', respond 201
              (formatSuccess view (Some "Report created successfully")))
    /\ get_report db' Sample.citizenN "100"
       = respond 200 (formatSuccess (select_full db' (ReportView.row view)) None).
Proof.
  assert (Hrun : exists db' view,
            post_report Sample.geocode Sample.accept Sample.db0 Sample.citizenN
                        Sample.new_report
            = (db', respond 201
                      (formatSuccess view (Some "Report created successfully")))).
  { vm_compute. eexists _, _. reflexivity. }
  destruct Hrun as (db' & view & Hrun).
  exists db', view. split; [exact Hrun|].
  refine (proj1 (post_report_then_get_report Sample.geocode Sample.accept
                   Sample.db0 Sample.citizenN Sample.new_report db' view _
                   eq_refl eq_refl sample_unique_report_ids _ Hrun)).
  apply (bool_decide_unpack _). vm_compute. exact I.
Defined.

(** ** What the writing handlers leave alone *)

Lemma update_report_frame check db id updates db' r' :
  update_report check db id updates = Some (db', r') ->
  Db.users db' = Db.users db
  /\ Db.municipalities db' = Db.municipalities db
  /\ Db.report_upvotes db' = Db.report_upvotes db.
Proof.
  unfold update_report.
  destruct (single _) as [r|]; [|done]. cbn [mbind option_bind].
  destruct (assign updates r) as [r1|]; [|done]. cbn [mbind option_bind].
  destruct (check db r1); [|done]. by intros [= <- _].
Qed.

(** X11.  Each writing handler touches its own table only, and only
    when it succeeds: [post_report] and [put_report] never change the
    users, the municipalities or the upvotes, [post_upvote] never
    changes the reports, the users or the municipalities, and a request
    that is not answered with the success status of its handler leaves
    the whole store as it was. *)
Theorem writes_are_confined geocode check db user id body :
  (forall db' r,
     post_report geocode check db user body = (db', r) ->
     Db.users db' = Db.users db
     /\ Db.municipalities db' = Db.municipalities db
     /\ Db.report_upvotes db' = Db.report_upvotes db
     /\ (status r <> 201 -> db' = db))
  /\
  (forall db' r,
     post_upvote db user id = (db', r) ->
     Db.reports db' = Db.reports db
     /\ Db.users db' = Db.users db
     /\ Db.municipalities db' = Db.municipalities db
     /\ (status r <> 200 -> db' = db))
  /\
  (forall db' r,
     put_report check db user id body = (db', r) ->
     Db.users db' = Db.users db
     /\ Db.municipalities db' = Db.municipalities db
     /\ Db.report_upvotes db' = Db.report_upvotes db
     /\ (status r <> 200 -> db' = db)).
Proof.
  split; [|split]; intros db' r.
  - unfold post_report.
    destruct (if negb _ then _ else _) as [m|]; [|by intros [= <- <-]].
    destruct (negb (JS.truthy m)); [by intros [= <- <-]|].
    unfold insert_report.
    destruct (assign _ _) as [row|]; [|by intros [= <- <-]].
    cbn [mbind option_bind].
    destruct (check db row); [|by intros [= <- <-]].
    intros [= <- <-]. cbn [status]. done.
  - unfold post_upvote.
    destruct (single (eq_filter Report.id _ _)); [|by intros [= <- <-]].
    destruct (JS.strict_eq _ _); [by intros [= <- <-]|].
    destruct (single (eq_filter Upvote.user_id _ _)).
    + intros [= <- <-]. cbn [status]. done.
    + unfold insert_upvote. destruct (bool_decide _); [by intros [= <- <-]|].
      intros [= <- <-]. cbn [status]. done.
  - assert (Hlast : apply_updates check db id body = (db', r) ->
                    Db.users db' = Db.users db
                    /\ Db.municipalities db' = Db.municipalities db
                    /\ Db.report_upvotes db' = Db.report_upvotes db
                    /\ (status r <> 200 -> db' = db)).
    { unfold apply_updates.
      destruct (update_report _ _ _ _) as [[db1 r1]|] eqn:Hup;
        [|by intros [= <- <-]].
      intros [= <- <-]. cbn [status].
      apply update_report_frame in Hup as (? & ? & ?). done. }
    unfold put_report.
    destruct (single _); [|by intros [= <- <-]].
    destruct (JS.strict_ne _ _); [by intros [= <- <-]|].
    destruct (JS.truthy _); [|done].
    destruct (find_official _ _ _); [done|by intros [= <- <-]].
Qed.

Lemma writes_are_confined_witness :
  (post_upvote Sample.db1 Sample.citizenA "x").1 = Sample.db1.
Proof.
  destruct (writes_are_confined Sample.geocode Sample.accept Sample.db1
              Sample.citizenA "x" ∅) as (_ & H & _).
  destruct (post_upvote Sample.db1 Sample.citizenA "x") as [db' r] eqn:Hrun.
  destruct (H db' r eq_refl) as (_ & _ & _ & Hsame).
  apply Hsame.
  assert (Hr : r = (post_upvote Sample.db1 Sample.citizenA "x").2)
    by (by rewrite Hrun).
  rewrite Hr. vm_compute. discriminate.
Defined.

(** X12.  A toggle concerns one pair only: whatever its outcome, the
    number of upvote rows of every other (report, user) pair is what it
    was. *)
Theorem post_upvote_other_pairs db user reportId report_id user_id :
  (report_id, user_id) <> (JS.Str reportId, User.id user) ->
  upvote_count (post_upvote db user reportId).1 report_id user_id
  = upvote_count db report_id user_id.
Proof.
  intros Hother. unfold post_upvote, upvote_count.
  destruct (single (eq_filter Report.id _ _)); [|done].
  destruct (JS.strict_eq _ _); [done|].
  destruct (single (eq_filter Upvote.user_id _ _)).
  - cbn [fst delete_upvotes with_upvotes Db.report_upvotes].
    rewrite list_filter_filter. f_equal. apply list_filter_iff.
    intros v. unfold same_upvote. split; [tauto|].
    intros [-> ->]. split; [done|].
    intros [H1%pg_eq_true H2%pg_eq_true]. apply Hother. congruence.
  - unfold insert_upvote. destruct (bool_decide _); [done|].
    cbn [fst tick with_upvotes Db.report_upvotes].
    rewrite filter_app, filter_cons_False, filter_nil, app_nil_r; [done|].
    unfold same_upvote. cbn. intros [H1 H2]. apply Hother. congruence.
Qed.

Lemma post_upvote_other_pairs_witness :
  upvote_count (post_upvote Sample.db1 Sample.citizenN "x").1
               (JS.Str "x") (JS.Str "d")
  = upvote_count Sample.db1 (JS.Str "x") (JS.Str "d").
Proof.
  apply post_upvote_other_pairs. discriminate.
Defined.

(** ** Updating across municipalities *)

(** X13.  An official cannot touch a report of another municipality:
    whatever the body says, also about the assignee, the update of such
    a report is answered 403 "Access denied" and writes nothing; and an
    id that no report has is answered 404 before anything else. *)
Theorem put_report_tenant_boundary check db currentUser id updates :
  unique_report_ids db ->
  ((forall r, r ∈ Db.reports db -> Report.id r <> JS.Str id) ->
   put_report check db currentUser id updates
   = (db, respond 404 (formatError "Report not found")))
  /\
  (forall r, r ∈ Db.reports db -> Report.id r = JS.Str id ->
     Report.municipality_id r <> User.municipality_id currentUser ->
     put_report check db currentUser id updates
     = (db, respond 403 (formatError "Access denied"))).
Proof.
  intros Hids. split.
  - intros Hno. unfold put_report. by rewrite eq_filter_nil.
  - intros r Hr Hid Hm. unfold put_report.
    rewrite (eq_filter_key Report.id _ _ r) by done. cbn [single].
    apply strict_ne_true in Hm. by rewrite Hm.
Qed.

Lemma put_report_tenant_boundary_witness :
  put_report Sample.accept Sample.db0 Sample.officialB "x"
             {["status" := JS.Str "resolved"]}
  = (Sample.db0, respond 403 (formatError "Access denied")).
Proof.
  destruct (put_report_tenant_boundary Sample.accept Sample.db0 Sample.officialB
              "x" {["status" := JS.Str "resolved"]} sample_unique_report_ids)
    as [_ H].
  apply (H Sample.X); [apply list_elem_of_here|reflexivity|discriminate].
Defined.

(** ** Assignment *)

Lemma assign_assigned_official obj r r' :
  assign obj r = Some r' ->
  JS.truthy (prop obj "assigned_official") = true ->
  Report.assigned_official r' = prop obj "assigned_official".
Proof.
  unfold assign. destruct (bool_decide _); [|done].
  destruct (timestamp_cell obj (Report.created_at r)) as [ts|]; [|done].
  cbn [mbind option_bind]. intros [= <-]. cbn [Report.assigned_official].
  unfold cell, prop. by destruct (obj !! "assigned_official") as [[]|].
Qed.

(** A success of the handler on a body that names an assignee went
    through the lookup of the assignee. *)
Lemma put_report_200_assignee check db currentUser id updates db' view message :
  JS.truthy (prop updates "assigned_official") = true ->
  put_report check db currentUser id updates
  = (db', respond 200 (formatSuccess view message)) ->
  exists report official r',
    single (eq_filter Report.id (JS.Str id) (Db.reports db)) = Some report
    /\ Report.municipality_id report = User.municipality_id currentUser
    /\ find_official db currentUser (prop updates "assigned_official")
       = Some official
    /\ update_report check db (JS.Str id) updates = Some (db', r')
    /\ view = select_full db' r'.
Proof.
  intros Ht. unfold put_report.
  destruct (single _) as [report|]; [|done].
  destruct (JS.strict_ne _ _) eqn:Hne; [done|].
  apply strict_ne_false in Hne. rewrite Ht.
  destruct (find_official _ _ _) as [official|]; [|done].
  unfold apply_updates.
  destruct (update_report _ _ _ _) as [[db1 r1]|]; [|done].
  intros [= <- <- _]. by exists report, official, r1.
Qed.

(** X14.  After a successful update that names an assignee and does not
    name [municipality_id], the report is assigned to an official of its
    own municipality: some user row has the id now in
    [assigned_official], the role official, and the municipality of the
    report. *)
Theorem put_report_assignee_is_local_official check db currentUser id updates
        db' view message :
  updates !! "municipality_id" = None ->
  JS.truthy (prop updates "assigned_official") = true ->
  put_report check db currentUser id updates
  = (db', respond 200 (formatSuccess view message)) ->
  exists official,
    official ∈ Db.users db'
    /\ User.id official = Report.assigned_official (ReportView.row view)
    /\ User.role official = JS.Str "official"
    /\ User.municipality_id official
       = Report.municipality_id (ReportView.row view).
Proof.
  intros Hmun Ht H.
  apply put_report_200_assignee in H
    as (report & official & r' & Hrep & Hm & Hoff & Hup & ->); [|done].
  apply find_official_elem in Hoff as (Hin & Hid & Hrole & Homun).
  pose proof (update_report_frame _ _ _ _ _ _ Hup) as (Hus & _ & _).
  unfold update_report in Hup. rewrite Hrep in Hup.
  cbn [mbind option_bind] in Hup.
  destruct (assign updates report) as [r1|] eqn:Ha; [|done].
  cbn [mbind option_bind] in Hup.
  destruct (check db r1); [|done]. injection Hup as _ <-.
  exists official. cbn [select_full ReportView.row].
  split; [by rewrite Hus|]. split.
  - rewrite Hid. symmetry. by eapply assign_assigned_official.
  - split; [done|]. rewrite Homun, <- Hm. symmetry.
    exact (assign_frame updates report r1 "municipality_id" Ha Hmun).
Qed.

Lemma put_report_assignee_is_local_official_witness :
  exists db' view official,
    put_report Sample.accept Sample.db0 Sample.officialC "x"
               {["assigned_official" := JS.Str "f"]}
    = (db', respond 200 (formatSuccess view (Some "Report updated successfully")))
    /\ official ∈ Db.users db'
    /\ User.id official = Report.assigned_official (ReportView.row view)
    /\ User.municipality_id official
       = Report.municipality_id (ReportView.row view).
Proof.
  assert (Hrun : exists db' view,
            put_report Sample.accept Sample.db0 Sample.officialC "x"
                       {["assigned_official" := JS.Str "f"]}
            = (db', respond 200
                      (formatSuccess view (Some "Report updated successfully")))).
  { vm_compute. eexists _, _. reflexivity. }
  destruct Hrun as (db' & view & Hrun).
  assert (Hnone : ({["assigned_official" := JS.Str "f"]} : jsobj)
                    !! "municipality_id" = None)
    by (vm_compute; reflexivity).
  assert (Ht : JS.truthy (prop {["assigned_official" := JS.Str "f"]}
                               "assigned_official") = true)
    by (vm_compute; reflexivity).
  destruct (put_report_assignee_is_local_official Sample.accept Sample.db0
              Sample.officialC "x" {["assigned_official" := JS.Str "f"]}
              db' view _ Hnone Ht Hrun)
    as (official & Hin & Hid & _ & Hmun).
  exists db', view, official.
  exact (conj Hrun (conj Hin (conj Hid Hmun))).
Defined.

(** ** The directory of municipalities *)

Section Directory.

Variable name_le : jsval -> jsval -> bool.

Lemma insert_asc_perm {A} (key : A -> jsval) x l :
  insert_asc name_le key x l ≡ₚ x :: l.
Proof.
  induction l as [|y l IH]; simpl; [done|].
  destruct (name_le (key x) (key y)); [done|].
  rewrite IH. apply Permutation_swap.
Qed.

Lemma order_asc_perm {A} (key : A -> jsval) l :
  order_asc name_le key l ≡ₚ l.
Proof.
  unfold order_asc. induction l as [|x l IH]; simpl; [done|].
  by rewrite insert_asc_perm, IH.
Qed.

Hypothesis name_le_total : forall a b, name_le a b = true \/ name_le b a = true.

Lemma insert_asc_sorted {A} (key : A -> jsval) x l :
  Sorted (fun a b => name_le (key a) (key b) = true) l ->
  Sorted (fun a b => name_le (key a) (key b) = true) (insert_asc name_le key x l).
Proof using name_le_total.
  induction l as [|y l IH]; intros Hl; simpl.
  - by repeat constructor.
  - destruct (name_le (key x) (key y)) eqn:Hxy.
    + constructor; [done|]. by constructor.
    + apply Sorted_inv in Hl as [Hl Hy]. constructor; [by apply IH|].
      assert (Hyx : name_le (key y) (key x) = true).
      { destruct (name_le_total (key x) (key y)); congruence. }
      destruct l as [|z l]; simpl; [by constructor|].
      destruct (name_le (key x) (key z)); constructor; [done|].
      by apply HdRel_inv in Hy.
Qed.

Lemma order_asc_sorted {A} (key : A -> jsval) l :
  Sorted (fun a b => name_le (key a) (key b) = true) (order_asc name_le key l).
Proof using name_le_total.
  unfold order_asc. induction l as [|x l IH]; simpl; [constructor|].
  by apply insert_asc_sorted.
Qed.

End Directory.

(** X15.  The public directory lists every municipality of the table
    exactly once, nothing more, and in the order of their names, for
    whatever total order the store sorts names by. *)
Theorem get_municipalities_complete_sorted name_le db :
  (forall a b, name_le a b = true \/ name_le b a = true) ->
  exists ms,
    get_municipalities name_le db = respond 200 (formatSuccess ms None)
    /\ ms ≡ₚ Db.municipalities db
    /\ Sorted (fun a b => name_le (Municipality.name a) (Municipality.name b) = true)
              ms.
Proof.
  intros Htotal. eexists. split; [reflexivity|]. split.
  - apply order_asc_perm.
  - by apply order_asc_sorted.
Qed.

Lemma by_text_total a b :
  Scenario.by_text a b = true \/ Scenario.by_text b a = true.
Proof. unfold Scenario.by_text. apply String.leb_total. Qed.

Lemma get_municipalities_complete_sorted_witness :
  exists ms,
    get_municipalities Scenario.by_text Sample.db0
    = respond 200 (formatSuccess ms None)
    /\ ms ≡ₚ [Sample.m1; Sample.m2]
    /\ Sorted (fun a b => Scenario.by_text (Municipality.name a)
                                           (Municipality.name b) = true) ms.
Proof.
  apply (get_municipalities_complete_sorted Scenario.by_text Sample.db0).
  apply by_text_total.
Defined.

(** X16.  Reading a municipality by id: an id that no municipality has
    is answered 404 "Municipality not found", and, ids being unique,
    the municipality that has the id is returned; so every entry of the
    directory whose id is a text is answered by its own id. *)
Theorem get_municipality_by_id name_le db id :
  NoDup (Municipality.id <$> Db.municipalities db) ->
  ((forall m, m ∈ Db.municipalities db -> Municipality.id m <> JS.Str id) ->
   get_municipality db id = respond 404 (formatError "Municipality not found"))
  /\
  (forall m, m ∈ Db.municipalities db -> Municipality.id m = JS.Str id ->
     get_municipality db id = respond 200 (formatSuccess m None))
  /\
  (forall ms message m,
     json (get_municipalities name_le db) = formatSuccess ms message ->
     m ∈ ms -> Municipality.id m = JS.Str id ->
     get_municipality db id = respond 200 (formatSuccess m None)).
Proof.
  intros Hids.
  assert (Hfound : forall m, m ∈ Db.municipalities db ->
                     Municipality.id m = JS.Str id ->
                     get_municipality db id = respond 200 (formatSuccess m None)).
  { intros m Hm Hid. unfold get_municipality.
    by rewrite (eq_filter_key Municipality.id _ _ m). }
  split; [|split; [done|]].
  - intros Hno. unfold get_municipality. by rewrite eq_filter_nil.
  - intros ms message m [= <- _] Hm Hid. apply Hfound; [|done].
    by rewrite order_asc_perm in Hm.
Qed.

Lemma get_municipality_by_id_witness :
  get_municipality Sample.db0 "m2" = respond 200 (formatSuccess Sample.m2 None)
  /\ get_municipality Sample.db0 "m9"
     = respond 404 (formatError "Municipality not found").
Proof.
  assert (Hids : NoDup (Municipality.id <$> Db.municipalities Sample.db0)).
  { apply (bool_decide_unpack _). vm_compute. exact I. }
  destruct (get_municipality_by_id Scenario.by_text Sample.db0 "m2" Hids)
    as (_ & H2 & _).
  destruct (get_municipality_by_id Scenario.by_text Sample.db0 "m9" Hids)
    as (H9 & _).
  split.
  - apply (H2 Sample.m2); [|reflexivity].
    apply list_elem_of_further, list_elem_of_here.
  - apply H9. intros m Hm. vm_compute in Hm.
    repeat (apply elem_of_cons in Hm as [->|Hm]; [discriminate|]).
    by apply elem_of_nil in Hm.
Defined.

(** ** Registration and login *)

Section Accounts.

Variable signUp : jsval -> jsval -> signup_result.
Variable signInWithPassword : jsval -> jsval -> signin_result.
Variable geocode : jsval -> jsval -> option jsval.
Variable users_check : Db.t -> User.t -> bool.

(** Every 201 of [post_register] comes from one identity and one
    accepted profile row. *)
Lemma post_register_created db body db' calls userData message :
  post_register signUp geocode users_check db body
  = (db', calls, respond 201 (formatSuccess userData message)) ->
  exists authId m,
    signUp (prop body "email") (prop body "password") = SignUpUser authId
    /\ (if geocoded_registration body
        then geocode (prop body "lat") (prop body "lng")
        else Some (prop body "municipality_id")) = Some m
    /\ userData = registered_profile db body authId m
    /\ db' = tick (with_users db (Db.users db ++ [userData]))
    /\ calls = [].
Proof.
  unfold post_register. fold (geocoded_registration body).
  destruct (signUp _ _) as [msg| |authId]; [done|done|].
  destruct (if geocoded_registration body then _ else _) as [m|]; [|done].
  unfold insert_user. fold (registered_profile db body authId m).
  destruct (users_check db _); [|done].
  intros [= <- <- <- _]. by exists authId, m.
Qed.

End Accounts.

(** X17.  What a successful registration stores.  The profile has the
    id issued by the identity provider and the role of the body, the
    users table grows by exactly that row, and no admin call is made.
    Its municipality is geocoded from the coordinates only for a citizen
    who sends two truthy coordinates and no municipality; an official, a
    caller who names a municipality, and a citizen with a missing or
    zero coordinate are stored with the [municipality_id] of the body,
    null when there is none. *)
Theorem post_register_profile signUp geocode users_check db body
        db' calls userData message :
  post_register signUp geocode users_check db body
  = (db', calls, respond 201 (formatSuccess userData message)) ->
  (exists authId,
     signUp (prop body "email") (prop body "password") = SignUpUser authId
     /\ User.id userData = JS.default JS.Null authId)
  /\ User.role userData = JS.default JS.Null (prop body "role")
  /\ Db.users db' = Db.users db ++ [userData]
  /\ Db.reports db' = Db.reports db
  /\ calls = []
  /\ (prop body "role" = JS.Str "citizen"
      /\ JS.truthy (prop body "lat") = true
      /\ JS.truthy (prop body "lng") = true
      /\ JS.truthy (prop body "municipality_id") = false ->
      exists m, geocode (prop body "lat") (prop body "lng") = Some m
                /\ User.municipality_id userData = JS.default JS.Null m)
  /\ (prop body "role" <> JS.Str "citizen"
      \/ JS.truthy (prop body "lat") = false
      \/ JS.truthy (prop body "lng") = false
      \/ JS.truthy (prop body "municipality_id") = true ->
      User.municipality_id userData
      = JS.default JS.Null (prop body "municipality_id")).
Proof.
  intros H.
  apply post_register_created in H as (authId & m & Hsign & Hm & -> & -> & ->).
  split; [by exists authId|]. do 4 (split; [done|]).
  cbn [registered_profile User.municipality_id]. split.
  - intros (Hrole & Hlat & Hlng & Hmun).
    unfold geocoded_registration in Hm.
    apply strict_eq_true in Hrole. rewrite Hrole, Hlat, Hlng, Hmun in Hm.
    by exists m.
  - intros Hnot.
    replace (geocoded_registration body) with false in Hm.
    + by injection Hm as <-.
    + symmetry. unfold geocoded_registration.
      destruct Hnot as [Hr|[Hl|[Hl|Hmun]]].
      * apply strict_eq_false in Hr. by rewrite Hr.
      * rewrite Hl. by rewrite andb_false_r.
      * rewrite Hl. by rewrite andb_false_r.
      * rewrite Hmun. by rewrite andb_false_r.
Qed.

Lemma post_register_profile_witness :
  exists db' userData,
    post_register Scenario.signUp Sample.geocode Scenario.accept_user
                  Sample.db0 Scenario.registration
    = (db', [], respond 201
                  (formatSuccess userData (Some "User registered successfully")))
    /\ User.role userData = JS.Str "citizen"
    /\ Db.users db' = Db.users Sample.db0 ++ [userData].
Proof.
  assert (Hrun : exists db' userData,
            post_register Scenario.signUp Sample.geocode Scenario.accept_user
                          Sample.db0 Scenario.registration
            = (db', [], respond 201
                          (formatSuccess userData
                                         (Some "User registered successfully")))).
  { vm_compute. eexists _, _. reflexivity. }
  destruct Hrun as (db' & userData & Hrun).
  destruct (post_register_profile _ _ _ _ _ _ _ _ _ Hrun)
    as (_ & Hrole & Husers & _).
  exists db', userData. split; [exact Hrun|]. split; [|exact Husers].
  rewrite Hrole. vm_compute. reflexivity.
Defined.



(** X19.  Login hands out the profile of the identity that signed in
    and no other.  A sign-in error is answered 401 whatever the store
    holds; a session whose identity has no profile row is answered 404
    "User profile not found"; and a 200 carries the tokens of the
    session with the one profile row whose id is the identity's. *)
Theorem post_login_identity signInWithPassword db body :
  (signInWithPassword (prop body "email") (prop body "password") = SignInError ->
   post_login signInWithPassword db body
   = respond 401 (formatError "Invalid email or password"))
  /\
  (forall data message,
     json (post_login signInWithPassword db body) = formatSuccess data message ->
     signInWithPassword (prop body "email") (prop body "password")
     = SignInSession (User.id (user data)) (access_token data)
                     (refresh_token data) (expires_at data)
     /\ user data ∈ Db.users db)
  /\
  (forall authId access refresh expires,
     signInWithPassword (prop body "email") (prop body "password")
     = SignInSession authId access refresh expires ->
     ((forall u, u ∈ Db.users db -> User.id u <> authId) ->
      post_login signInWithPassword db body
      = respond 404 (formatError "User profile not found"))
     /\
     (forall u, unique_user_ids db -> JS.nullish authId = false ->
        u ∈ Db.users db -> User.id u = authId ->
        post_login signInWithPassword db body
        = respond 200
            (formatSuccess (mk_login_data u access refresh expires)
                           (Some "Login successful")))).
Proof.
  unfold post_login. split; [by intros ->|]. split.
  - intros data message.
    destruct (signInWithPassword _ _) as [| |authId access refresh expires];
      [done|done|].
    destruct (single _) as [u|] eqn:Hu; [|done].
    cbn [json]. intros [= <- _]. cbn [user access_token refresh_token expires_at].
    apply single_eq_filter_elem in Hu as [Hin ->]. done.
  - intros authId access refresh expires ->. split.
    + intros Hno. by rewrite eq_filter_nil.
    + intros u Hids Hid Hu Hu'. by rewrite (eq_filter_key User.id _ _ u).
Qed.

Lemma post_login_identity_witness :
  post_login Scenario.signIn Sample.db0 Scenario.credentials
  = respond 200
      (formatSuccess
         (mk_login_data Sample.citizenA (JS.Str "at") (JS.Str "rt") (JS.Num 3600))
         (Some "Login successful")).
Proof.
  destruct (post_login_identity Scenario.signIn Sample.db0 Scenario.credentials)
    as (_ & _ & H).
  destruct (H (JS.Str "a") (JS.Str "at") (JS.Str "rt") (JS.Num 3600)) as [_ H'].
  - vm_compute. reflexivity.
  - apply (H' Sample.citizenA sample_unique_user_ids eq_refl);
      [apply list_elem_of_here|reflexivity].
Defined.

(** X20.  Registration and login fit together: once a registration has
    succeeded with an identity that had no profile row before, a login
    that the provider resolves to that identity is answered 200 with
    the profile just stored. *)
Theorem post_register_then_login signUp signInWithPassword geocode users_check
        db body db' calls userData message credentials access refresh expires :
  unique_user_ids db ->
  post_register signUp geocode users_check db body
  = (db', calls, respond 201 (formatSuccess userData message)) ->
  JS.nullish (User.id userData) = false ->
  User.id userData ∉ User.id <$> Db.users db ->
  signInWithPassword (prop credentials "email") (prop credentials "password")
  = SignInSession (User.id userData) access refresh expires ->
  post_login signInWithPassword db' credentials
  = respond 200
      (formatSuccess (mk_login_data userData access refresh expires)
                     (Some "Login successful")).
Proof.
  intros Hids Hreg Hid Hfresh Hsign.
  apply post_register_created in Hreg as (authId & m & _ & _ & Hu & -> & _).
  unfold post_login. rewrite Hsign.
  cbn [tick with_users Db.users].
  rewrite (eq_filter_key User.id _ _ userData); [done| | |done|done].
  - rewrite fmap_app. apply NoDup_app. split; [done|]. split.
    + intros x Hx Hx'. cbn in Hx'. apply list_elem_of_singleton in Hx'.
      subst x. by apply Hfresh.
    + apply NoDup_singleton.
  - apply elem_of_app. right. apply list_elem_of_here.
Qed.

Lemma post_register_then_login_witness :
  exists db' userData,
    post_register Scenario.signUp Sample.geocode Scenario.accept_user
                  Sample.db0 Scenario.registration
    = (db', [], respond 201
                  (formatSuccess userData (Some "User registered successfully")))
    /\ post_login (fun _ _ => SignInSession (JS.Str "z") (JS.Str "at")
                                            (JS.Str "rt") (JS.Num 3600))
                  db' Scenario.credentials
       = respond 200
           (formatSuccess
              (mk_login_data userData (JS.Str "at") (JS.Str "rt") (JS.Num 3600))
              (Some "Login successful")).
Proof.
  assert (Hrun : exists db' userData,
            post_register Scenario.signUp Sample.geocode Scenario.accept_user
                          Sample.db0 Scenario.registration
            = (db', [], respond 201
                          (formatSuccess userData
                                         (Some "User registered successfully")))
            /\ User.id userData = JS.Str "z").
  { vm_compute. eexists _, _. split; reflexivity. }
  destruct Hrun as (db' & userData & Hrun & Hz).
  exists db', userData. split; [exact Hrun|].
  apply (post_register_then_login Scenario.signUp _ Sample.geocode
           Scenario.accept_user Sample.db0 Scenario.registration db' []
           userData (Some "User registered successfully")).
  - apply sample_unique_user_ids.
  - exact Hrun.
  - by rewrite Hz.
  - rewrite Hz. apply (bool_decide_unpack _). vm_compute. exact I.
  - by rewrite Hz.
Defined.
